(** * Untrusted event ingestion: the Paystack webhook and the tracking ping

    A shallow embedding of the two untrusted-input handlers of
    [src/functions/index.paystack_only.backup.js]: [paystackWebhook] (lines
    266-370) and [trackPing] (lines 1025-1103), together with the helpers
    they call ([tsToMillis], [normalizeEmail], [timingSafeEqualHex]) and the
    session document [createTrackingSession] stores.  The file opens with an
    earlier version of the webhook (lines 29-155); the handler embedded here
    is the later one, which reads the metadata plan name.

    The callable functions that feed the two handlers, or read what they
    write, are embedded as well: [createOrgAndAdmin], [joinOrgWithCode],
    [createStudent], [linkChildByCode], [createTrackingSession],
    [saveChildLocation], [getLastChildLocation], [addRewardStar],
    [getRewardsForStudent] and [initPaystackCheckout], with their helpers
    ([randCode], [randToken], [requireAuth], [getUser], [requireOrg],
    [requireLinkedChild], [paystackApi]).

    Modelling decisions, all of which are visible in the definitions below:
    - JavaScript numbers are IEEE binary64 values: Rocq's primitive floats.
      Instants (milliseconds since the epoch, [Date.now()], Firestore
      timestamps) are integers and are modelled in [Z].
    - Strings are Rocq strings; [trim], [toLowerCase] and [toUpperCase] act
      on the ASCII range, characters above 127 are left as they are.
    - The handlers are programs over the Firestore calls they [await]; every
      call is one atomic step of the store.  Storage failures (the [catch]
      branch that answers 500) are outside the model: the store never throws,
      and references, organisation ids and student ids are taken to be valid
      document ids.
    - String-valued payload fields (reference, e-mail, plan name, session id,
      token) are typed as strings that may be absent; the numeric fields
      (amount, lat, lng, acc) are untyped JavaScript values, since the code
      coerces them with [Number].
    - A callable function is a function from its request and the store to
      the value it returns or the [HttpsError] it throws, and the store it
      leaves.  What the code does not determine is an argument: the readings
      of [Date.now()], the draws of [Math.random()], the document ids and the
      listing order the store chooses, the response of the payment
      provider. *)

From Stdlib Require Import ZArith Floats Ascii String List Bool Lia.
From stdpp Require Import gmap strings list.
Import ListNotations.

Local Open Scope string_scope.
Local Open Scope Z_scope.

(** ** The JavaScript operations the handlers rely on *)

Module JS.

(** A value found in a field of a parsed JSON body.  [VObject] stands for a
    plain object such as [{}]; arrays are not modelled. *)
Inductive value : Type :=
  | VUndefined
  | VNull
  | VBool (b : bool)
  | VNum (x : float)
  | VStr (s : string)
  | VObject.

(** ToBoolean. *)
Definition truthy (v : value) : bool :=
  match v with
  | VUndefined | VNull => false
  | VBool b => b
  | VNum x => negb (PrimFloat.eqb x 0 || PrimFloat.is_nan x)
  | VStr s => negb (String.eqb s "")
  | VObject => true
  end.

(** [v || d] *)
Definition or_else (v d : value) : value := if truthy v then v else d.

(** Truthiness of a string that may be absent. *)
Definition truthy_str (o : option string) : bool :=
  match o with
  | Some s => negb (String.eqb s "")
  | None => false
  end.

(** [String(o || "")] for a field that is a string or absent. *)
Definition str_or_empty (o : option string) : string :=
  match o with
  | Some s => s
  | None => ""
  end.

(** *** String.prototype.trim and toLowerCase (ASCII range) *)

Definition is_ws (c : ascii) : bool :=
  let n := N_of_ascii c in
  (N.eqb n 32 || (N.leb 9 n && N.leb n 13))%N.

Fixpoint trim_start (s : string) : string :=
  match s with
  | String c s' => if is_ws c then trim_start s' else s
  | EmptyString => EmptyString
  end.

Fixpoint rev_onto (s acc : string) : string :=
  match s with
  | String c s' => rev_onto s' (String c acc)
  | EmptyString => acc
  end.

Definition rev (s : string) : string := rev_onto s EmptyString.

Definition trim (s : string) : string :=
  rev (trim_start (rev (trim_start s))).

Definition lower_char (c : ascii) : ascii :=
  let n := N_of_ascii c in
  if (N.leb 65 n && N.leb n 90)%N then ascii_of_N (n + 32) else c.

Fixpoint toLowerCase (s : string) : string :=
  match s with
  | String c s' => String (lower_char c) (toLowerCase s')
  | EmptyString => EmptyString
  end.

(** *** Number(v): ToNumber, with StringToNumber on decimal, hexadecimal,
    octal and binary literals and on [Infinity] *)

Definition digit_of (base : Z) (c : ascii) : option Z :=
  let n := Z.of_N (N_of_ascii c) in
  let d := if (48 <=? n) && (n <=? 57) then n - 48
           else if (97 <=? n) && (n <=? 102) then n - 87
           else if (65 <=? n) && (n <=? 70) then n - 55
           else 99 in
  if d <? base then Some d else None.

(** Reads the longest prefix of digits: the number read on top of [acc],
    how many digits were read, and the rest of the string. *)
Fixpoint take_digits (base : Z) (s : string) (acc count : Z) : Z * Z * string :=
  match s with
  | String c s' =>
      match digit_of base c with
      | Some d => take_digits base s' (acc * base + d) (count + 1)
      | None => (acc, count, s)
      end
  | EmptyString => (acc, count, s)
  end.

Definition float_of_Z (m : Z) : float :=
  SF2Prim (binary_normalize prec emax m 0 false).

(** The double nearest to [m * 10 ^ e], for [0 <= m]. *)
Definition float_of_decimal (m e : Z) : float :=
  if 0 <=? e then float_of_Z (m * 10 ^ e)
  else match m with
       | Z.pos p =>
           SF2Prim (SFdiv prec emax (S754_finite false p 0)
                                    (S754_finite false (Z.to_pos (10 ^ (- e))) 0))
       | _ => 0%float
       end.

Definition exponent_part (s : string) : option Z :=
  match s with
  | EmptyString => Some 0
  | String c r =>
      if Ascii.eqb c "e" || Ascii.eqb c "E" then
        let '(neg, r') :=
          match r with
          | String "-" r' => (true, r')
          | String "+" r' => (false, r')
          | _ => (false, r)
          end in
        match take_digits 10 r' 0 0 with
        | (e, n, EmptyString) =>
            if 0 <? n then Some (if neg then - e else e) else None
        | _ => None
        end
      else None
  end.

Definition unsigned_decimal (s : string) : float :=
  if String.eqb s "Infinity" then infinity else
  let '(ip, ni, r1) := take_digits 10 s 0 0 in
  let '(m, nf, r2) :=
    match r1 with
    | String "." r => take_digits 10 r ip 0
    | _ => (ip, 0, r1)
    end in
  if ni + nf =? 0 then nan else
  match exponent_part r2 with
  | Some e => float_of_decimal m (e - nf)
  | None => nan
  end.

Definition radix_literal (base : Z) (s : string) : float :=
  match take_digits base s 0 0 with
  | (m, n, EmptyString) => if 0 <? n then float_of_Z m else nan
  | _ => nan
  end.

Definition StringToNumber (s : string) : float :=
  match trim s with
  | EmptyString => 0%float
  | String "0" (String c r) as t =>
      if Ascii.eqb c "x" || Ascii.eqb c "X" then radix_literal 16 r
      else if Ascii.eqb c "o" || Ascii.eqb c "O" then radix_literal 8 r
      else if Ascii.eqb c "b" || Ascii.eqb c "B" then radix_literal 2 r
      else unsigned_decimal t
  | String "-" r => PrimFloat.opp (unsigned_decimal r)
  | String "+" r => unsigned_decimal r
  | t => unsigned_decimal t
  end.

Definition ToNumber (v : value) : float :=
  match v with
  | VUndefined => nan
  | VNull => 0%float
  | VBool b => if b then 1%float else 0%float
  | VNum x => x
  | VStr s => StringToNumber s
  | VObject => nan
  end.

(** *** Buffer.from(s, "hex"): pairs of hexadecimal digits, decoding stops
    at the first pair that is not one *)

Fixpoint hex_decode (s : string) : list Z :=
  match s with
  | String a (String b r) =>
      match digit_of 16 a, digit_of 16 b with
      | Some x, Some y => (16 * x + y) :: hex_decode r
      | _, _ => []
      end
  | _ => []
  end.

End JS.

(** ** The Firestore documents the handlers read and write *)

Module Firestore.

(** A document of [paystack_events], keyed by the payment reference. *)
Record event_doc : Type := {
  e_createdAt : Z;
  e_email : string;
  e_amount : float;
}.

(** The subscription fields of a document of [users]; [None] is [null] or
    an absent field.  [u_rest] holds the fields the webhook never names. *)
Record user_doc : Type := {
  u_email : option string;
  u_plan : option string;
  u_status : option string;
  u_lastPaymentRef : option string;
  u_updatedAt : option Z;
  u_trialEndsAt : option Z;
  u_subscriptionEndsAt : option Z;
  u_rest : gmap string string;
}.

Definition no_user : user_doc :=
  {| u_email := None; u_plan := None; u_status := None;
     u_lastPaymentRef := None; u_updatedAt := None; u_trialEndsAt := None;
     u_subscriptionEndsAt := None; u_rest := ∅ |}.

(** The [updates] object of the webhook; [updatedAt] is the server
    timestamp and [trialEndsAt] is [null] in every such object. *)
Record updates : Type := {
  up_plan : string;
  up_status : string;
  up_lastPaymentRef : option string;
  up_subscriptionEndsAt : option Z;
}.

(** What [sess.expiresAt] can hold, by the cases [tsToMillis] tells apart. *)
Inductive ts_field : Type :=
  | TsFalsy                                   (* undefined, null, 0, "", false *)
  | TsTimestamp (seconds nanoseconds : Z)     (* a Firestore Timestamp *)
  | TsObject (seconds _seconds : option Z)    (* a map without toMillis *)
  | TsOther.                                  (* any other truthy value *)

(** A document of a [trackingSessions] collection. *)
Record session_doc : Type := {
  s_sessionId : string;
  s_token : option string;
  s_orgId : string;
  s_studentId : string;
  s_expiresAt : ts_field;
  s_isActive : bool;
}.

(** A document of [orgs/{org}/students/{student}/locations]. *)
Record location_doc : Type := {
  l_sid : string;
  l_orgId : string;
  l_studentId : string;
  l_lat : float;
  l_lng : float;
  l_acc : float;
  l_createdAt : Z;
  l_ua : string;
}.

(** The [lastLocation] field of [orgs/{org}/students/{student}]. *)
Record last_location : Type := {
  ll_lat : float;
  ll_lng : float;
  ll_acc : float;
  ll_sid : string;
  ll_updatedAt : Z;
}.

(** The collections, and the server clock that resolves
    [FieldValue.serverTimestamp()]. *)
Record store : Type := {
  paystack_events : gmap string event_doc;
  users : gmap string user_doc;
  trackingSessions : list session_doc;
  locations : gmap (string * string) (list location_doc);
  lastLocation : gmap (string * string) last_location;
  server_time : Z;
}.

(** [userRef.set(updates, { merge: true })] on one document. *)
Definition merge_updates (t : Z) (up : updates) (d : user_doc) : user_doc :=
  {| u_email := u_email d;
     u_plan := Some (up_plan up);
     u_status := Some (up_status up);
     u_lastPaymentRef := up_lastPaymentRef up;
     u_updatedAt := Some t;
     u_trialEndsAt := None;
     u_subscriptionEndsAt := up_subscriptionEndsAt up;
     u_rest := u_rest d |}.

(** The calls the handlers await. *)
Inductive call : Type :=
  | EventGet (reference : string)
  | EventSet (reference email : string) (amount : float)
  | UserByEmail (email : string)
  | UserSetMerge (uid : string) (up : updates)
  | SessionBySid (sid : string)
  | LocationAdd (orgId studentId sid : string) (lat lng acc : float) (ua : string)
  | StudentSetLastLocation (orgId studentId sid : string) (lat lng acc : float).

Definition answer (c : call) : Type :=
  match c with
  | EventGet _ => bool
  | UserByEmail _ => option string
  | SessionBySid _ => option session_doc
  | _ => unit
  end.

Definition has_email (email : string) (kd : string * user_doc) : bool :=
  match u_email kd.2 with
  | Some e => String.eqb e email
  | None => false
  end.

(** [db.collection("users").where("email", "==", email).limit(1)]: the id
    of the first matching document, in the order the store lists them. *)
Definition user_by_email (email : string) (us : gmap string user_doc) : option string :=
  fst <$> List.find (has_email email) (map_to_list us).

(** [collectionGroup("trackingSessions").where("sessionId", "==", sid).limit(1)] *)
Definition session_by_sid (sid : string) (ss : list session_doc) : option session_doc :=
  List.find (fun s => String.eqb (s_sessionId s) sid) ss.

Definition set_events (es : gmap string event_doc) (st : store) : store :=
  {| paystack_events := es; users := users st;
     trackingSessions := trackingSessions st; locations := locations st;
     lastLocation := lastLocation st; server_time := server_time st |}.

Definition set_users (us : gmap string user_doc) (st : store) : store :=
  {| paystack_events := paystack_events st; users := us;
     trackingSessions := trackingSessions st; locations := locations st;
     lastLocation := lastLocation st; server_time := server_time st |}.

Definition set_locations (ls : gmap (string * string) (list location_doc))
    (st : store) : store :=
  {| paystack_events := paystack_events st; users := users st;
     trackingSessions := trackingSessions st; locations := ls;
     lastLocation := lastLocation st; server_time := server_time st |}.

Definition set_lastLocation (ll : gmap (string * string) last_location)
    (st : store) : store :=
  {| paystack_events := paystack_events st; users := users st;
     trackingSessions := trackingSessions st; locations := locations st;
     lastLocation := ll; server_time := server_time st |}.

(** What each call answers and how it leaves the store: [refDoc.get()]
    answers whether the document exists; [refDoc.set(...)] creates or
    replaces it; [set(..., { merge: true })] creates the document when it
    is missing; [add] appends a document to the collection. *)
Definition perform (c : call) (st : store) : answer c * store :=
  match c return answer c * store with
  | EventGet r =>
      (bool_decide (is_Some (paystack_events st !! r)), st)
  | EventSet r email amount =>
      (tt, set_events
             (<[r := {| e_createdAt := server_time st; e_email := email;
                        e_amount := amount |}]> (paystack_events st)) st)
  | UserByEmail email => (user_by_email email (users st), st)
  | UserSetMerge uid up =>
      (tt, set_users
             (<[uid := merge_updates (server_time st) up
                         (default no_user (users st !! uid))]> (users st)) st)
  | SessionBySid sid => (session_by_sid sid (trackingSessions st), st)
  | LocationAdd org stu sid lat lng acc ua =>
      (tt, set_locations
             (<[(org, stu) :=
                 (default [] (locations st !! (org, stu)) ++
                  [{| l_sid := sid; l_orgId := org; l_studentId := stu;
                      l_lat := lat; l_lng := lng; l_acc := acc;
                      l_createdAt := server_time st; l_ua := ua |}])%list]>
                (locations st)) st)
  | StudentSetLastLocation org stu sid lat lng acc =>
      (tt, set_lastLocation
             (<[(org, stu) :=
                 {| ll_lat := lat; ll_lng := lng; ll_acc := acc;
                    ll_sid := sid; ll_updatedAt := server_time st |}]>
                (lastLocation st)) st)
  end.

(** Calls that write a SubscriptionState, a ledger record, a history
    record, a snapshot. *)
Definition is_user_write (c : call) : bool :=
  match c with UserSetMerge _ _ => true | _ => false end.
Definition is_event_write (c : call) : bool :=
  match c with EventSet _ _ _ => true | _ => false end.
Definition is_location_add (c : call) : bool :=
  match c with LocationAdd _ _ _ _ _ _ _ => true | _ => false end.
Definition is_snapshot_write (c : call) : bool :=
  match c with StudentSetLastLocation _ _ _ _ _ _ => true | _ => false end.
Definition is_write (c : call) : bool :=
  is_user_write c || is_event_write c || is_location_add c || is_snapshot_write c.

End Firestore.

(** ** Handlers as programs over the store's calls *)

Module Prog.
Import Firestore.

Inductive prog (R : Type) : Type :=
  | Ret (r : R)
  | Await (c : call) (k : answer c -> prog R).
Arguments Ret {R} r.
Arguments Await {R} c k.

(** The outcome of running a handler to its end: its reply, the store it
    leaves, and the calls it made, first call first. *)
Record outcome (R : Type) : Type := {
  reply : R;
  final : store;
  calls : list call;
}.
Arguments reply {R} o.
Arguments final {R} o.
Arguments calls {R} o.

Fixpoint run {R : Type} (p : prog R) (st : store) : outcome R :=
  match p with
  | Ret r => {| reply := r; final := st; calls := [] |}
  | Await c k =>
      let '(a, st') := perform c st in
      let o := run (k a) st' in
      {| reply := reply o; final := final o; calls := c :: calls o |}
  end.

(** One atomic step of a handler: the call it is waiting on is performed
    and the handler resumes; a finished handler stays as it is. *)
Definition step {R : Type} (p : prog R) (st : store) : prog R * store * list call :=
  match p with
  | Ret r => (Ret r, st, [])
  | Await c k => let '(a, st') := perform c st in (k a, st', [c])
  end.

(** Two deliveries handled concurrently: the schedule says which handler
    takes the next step ([true]: the first).  The result holds what is left
    of each handler, the store, and the calls performed, first call first. *)
Fixpoint interleave {R : Type} (schedule : list bool) (p q : prog R) (st : store)
  : prog R * prog R * store * list call :=
  match schedule with
  | [] => (p, q, st, [])
  | true :: sch =>
      let '(p', st', c) := step p st in
      let '(p2, q2, st2, cs) := interleave sch p' q st' in
      (p2, q2, st2, (c ++ cs)%list)
  | false :: sch =>
      let '(q', st', c) := step q st in
      let '(p2, q2, st2, cs) := interleave sch p q' st' in
      (p2, q2, st2, (c ++ cs)%list)
  end.

End Prog.

(** ** HTTP requests and replies *)

Inductive content : Type :=
  | Text (s : string)                          (* res.send(s) *)
  | Json (ok : bool) (error : option string).  (* res.json({ ok, error }) *)

Record response : Type := {
  status : Z;
  sent : content;
}.

Definition send (code : Z) (s : string) : response :=
  {| status := code; sent := Text s |}.
Definition json_error (code : Z) (e : string) : response :=
  {| status := code; sent := Json false (Some e) |}.
Definition json_ok : response :=
  {| status := 200; sent := Json true None |}.

(** ** Helpers of index.js *)

(** [tsToMillis(ts)] *)
Definition tsToMillis (ts : Firestore.ts_field) : Z :=
  match ts with
  | Firestore.TsFalsy => 0
  | Firestore.TsTimestamp s n => s * 1000 + n / 1000000
  | Firestore.TsObject sec usec =>
      match sec with
      | Some s => if negb (s =? 0) then s * 1000 else
          match usec with
          | Some u => if negb (u =? 0) then u * 1000 else 0
          | None => 0
          end
      | None =>
          match usec with
          | Some u => if negb (u =? 0) then u * 1000 else 0
          | None => 0
          end
      end
  | Firestore.TsOther => 0
  end.

(** [normalizeEmail(email)] *)
Definition normalizeEmail (email : option string) : string :=
  JS.toLowerCase (JS.trim (JS.str_or_empty email)).

(** [timingSafeEqualHex(a, b)]: both strings are decoded as hexadecimal,
    buffers of different lengths are unequal, buffers of one length are
    compared by [crypto.timingSafeEqual]. *)
Definition timingSafeEqualHex (a b : option string) : bool :=
  let aa := JS.hex_decode (JS.str_or_empty a) in
  let bb := JS.hex_decode (JS.str_or_empty b) in
  if negb (Nat.eqb (length aa) (length bb)) then false
  else bool_decide (aa = bb).

(** ** The Paystack webhook *)

Module Webhook.
Import Firestore Prog.

(** [event.data] of the event envelope. *)
Record charge : Type := {
  reference : option string;       (* data.reference *)
  customer_email : option string;  (* data.customer?.email *)
  amount : JS.value;               (* data.amount *)
  metadata_plan : option string;   (* data.metadata?.plan *)
}.

Definition no_charge : charge :=
  {| reference := None; customer_email := None; amount := JS.VUndefined;
     metadata_plan := None |}.

(** [req.body] *)
Record envelope : Type := {
  event : option string;
  data : option charge;
}.

(** The request, with [digest] the hexadecimal HMAC-SHA-512 of the raw body
    under the secret, as [crypto.createHmac(...).digest("hex")] returns it. *)
Record request : Type := {
  method : string;
  signature : option string;       (* req.get("x-paystack-signature") *)
  digest : string;
  body : option envelope;
}.

Definition AMT_MONTHLY : float := 10000.
Definition AMT_YEARLY : float := 90000.
Definition AMT_LIFETIME : float := 500000.
Definition AMT_COMMUNITY : float := 500.

Definition recognized (p : string) : bool :=
  String.eqb p "monthly" || String.eqb p "yearly" ||
  String.eqb p "lifetime" || String.eqb p "community".

(** Lines 319-334: the plan and the number of days, from the normalised
    metadata plan name and the amount. *)
Definition classify (metaPlan : string) (amount : float) : string * option Z :=
  if negb (String.eqb metaPlan "") then
    if recognized metaPlan then
      (metaPlan,
       if String.eqb metaPlan "monthly" then Some 30
       else if String.eqb metaPlan "yearly" then Some 365 else None)
    else ("pending", None)
  else
    if PrimFloat.eqb amount AMT_MONTHLY then ("monthly", Some 30)
    else if PrimFloat.eqb amount AMT_YEARLY then ("yearly", Some 365)
    else if PrimFloat.eqb amount AMT_LIFETIME then ("lifetime", None)
    else if PrimFloat.eqb amount AMT_COMMUNITY then ("community", None)
    else ("pending", None).


(** Lines 345-359: the [updates] object, at [Date.now() = now]. *)
Definition make_updates (now : Z) (plan : string) (days : option Z)
    (reference : option string) : updates :=
  {| up_plan := plan;
     up_status := if String.eqb plan "pending" then "inactive" else "active";
     up_lastPaymentRef := if JS.truthy_str reference then reference else None;
     up_subscriptionEndsAt :=
       match days with
       | Some d => if negb (d =? 0) then Some (now + d * 24 * 60 * 60 * 1000)
                   else None
       | None => None
       end |}.

(** Lines 337-364: find the user, write the subscription. *)
Definition project (now : Z) (email : string) (plan : string)
    (days : option Z) (reference : option string) : prog response :=
  Await (UserByEmail email) (fun userSnap =>
    match userSnap with
    | None => Ret (send 200 "No matching user")
    | Some uid =>
        Await (UserSetMerge uid (make_updates now plan days reference))
              (fun _ => Ret (send 200 "OK"))
    end).

(** Lines 293-296 and 319: the e-mail, the amount and the metadata plan
    name as the handler reads them. *)
Definition email_of (d : charge) : string := normalizeEmail (customer_email d).
Definition amount_of (d : charge) : float :=
  JS.ToNumber (JS.or_else (amount d) (JS.VNum 0)).
Definition metaPlan_of (d : charge) : string :=
  JS.toLowerCase (JS.trim (JS.str_or_empty (metadata_plan d))).

(** The [updates] object the handler builds for the event [d]. *)
Definition updates_of (now : Z) (d : charge) : updates :=
  let '(plan, days) := classify (metaPlan_of d) (amount_of d) in
  make_updates now plan days (reference d).

(** Lines 293-364: a [charge.success] event behind the signature gate. *)
Definition handle_charge (now : Z) (d : charge) : prog response :=
  let ref := reference d in
  let email := email_of d in
  let amt := amount_of d in
  if String.eqb email "" then Ret (send 200 "No email")
  else
    let '(plan, days) := classify (metaPlan_of d) amt in
    let rest := project now email plan days ref in
    if JS.truthy_str ref then
      let r := JS.str_or_empty ref in
      Await (EventGet r) (fun exists_ =>
        if exists_ then Ret (send 200 "Duplicate")
        else Await (EventSet r email amt) (fun _ => rest))
    else rest.

Definition paystackWebhook (secret : string) (now : Z) (req : request)
    : prog response :=
  if negb (String.eqb (method req) "POST") then Ret (send 405 "Method Not Allowed")
  else if String.eqb secret "" then Ret (send 500 "Missing secret")
  else if negb (JS.truthy_str (signature req)) then Ret (send 400 "Missing signature")
  else if negb (timingSafeEqualHex (Some (digest req)) (signature req))
  then Ret (send 400 "Invalid signature")
  else
    match body req with
    | None => Ret (send 200 "Ignored")
    | Some ev =>
        if negb (bool_decide (event ev = Some "charge.success"))
        then Ret (send 200 "Ignored")
        else handle_charge now (default no_charge (data ev))
    end.

(** The gates in front of [handle_charge]: a POST with a configured
    secret, a signature that matches the digest, and the event tag
    [charge.success]; [d] is the event's data. *)
Definition charge_success (secret : string) (req : request) (d : charge) : Prop :=
  method req = "POST" ∧ secret ≠ "" ∧
  JS.truthy_str (signature req) = true ∧
  timingSafeEqualHex (Some (digest req)) (signature req) = true ∧
  ∃ ev, body req = Some ev ∧ event ev = Some "charge.success" ∧
        d = default no_charge (data ev).

End Webhook.

(** ** The tracking ping *)

Module Tracking.
Import Firestore Prog.

(** [req.body] *)
Record ping : Type := {
  sid : option string;
  tok : option string;
  lat : JS.value;
  lng : JS.value;
  acc : JS.value;
}.

Definition no_ping : ping :=
  {| sid := None; tok := None; lat := JS.VUndefined; lng := JS.VUndefined;
     acc := JS.VUndefined |}.

Record request : Type := {
  method : string;
  body : option ping;
  user_agent : option string;      (* req.headers["user-agent"] *)
}.

(** Lines 1032-1037: the fields as the handler reads them. *)
Definition sid_of (req : request) : string :=
  JS.trim (JS.str_or_empty (sid (default no_ping (body req)))).
Definition tok_of (req : request) : string :=
  JS.trim (JS.str_or_empty (tok (default no_ping (body req)))).
Definition lat_of (req : request) : float :=
  JS.ToNumber (lat (default no_ping (body req))).
Definition lng_of (req : request) : float :=
  JS.ToNumber (lng (default no_ping (body req))).
Definition acc_of (req : request) : float :=
  JS.ToNumber (JS.or_else (acc (default no_ping (body req))) (JS.VNum 0)).
(** Line 1081: [String(req.headers["user-agent"] || "").slice(0, 180)] *)
Definition ua_of (req : request) : string :=
  String.substring 0 180 (JS.str_or_empty (user_agent req)).

(** Lines 1084-1097: the history record is added, then the snapshot is
    merged into the student document. *)
Definition record_location (req : request) (sess : session_doc) : prog response :=
  let orgId := s_orgId sess in
  let studentId := s_studentId sess in
  Await (LocationAdd orgId studentId (sid_of req) (lat_of req) (lng_of req)
                     (acc_of req) (ua_of req)) (fun _ =>
  Await (StudentSetLastLocation orgId studentId (sid_of req) (lat_of req)
                                (lng_of req) (acc_of req)) (fun _ =>
  Ret json_ok)).

Definition trackPing (now : Z) (req : request) : prog response :=
  if negb (String.eqb (method req) "POST") then Ret (json_error 405 "POST only")
  else if String.eqb (sid_of req) "" || String.eqb (tok_of req) "" then
    Ret (json_error 400 "sid and tok required")
  else if PrimFloat.is_nan (lat_of req) || PrimFloat.is_nan (lng_of req) then
    Ret (json_error 400 "lat/lng invalid")
  else
    Await (SessionBySid (sid_of req)) (fun q =>
      match q with
      | None => Ret (json_error 404 "session not found")
      | Some sess =>
          if negb (s_isActive sess) then Ret (json_error 403 "session inactive")
          else if negb (String.eqb (JS.str_or_empty (s_token sess)) (tok_of req))
          then Ret (json_error 403 "bad token")
          else
            let exp := tsToMillis (s_expiresAt sess) in
            if negb (exp =? 0) && (exp <? now) then
              Ret (json_error 403 "session expired")
            else record_location req sess
      end).

(** A ping that reaches the token check of the session [sess]: a POST with
    a session id and a token, numeric latitude and longitude, for which the
    session query answers [sess], an active session. *)
Definition active_ping (req : request) (st : store) (sess : session_doc) : Prop :=
  method req = "POST" ∧ sid_of req ≠ "" ∧ tok_of req ≠ "" ∧
  PrimFloat.is_nan (lat_of req) = false ∧ PrimFloat.is_nan (lng_of req) = false ∧
  session_by_sid (sid_of req) (trackingSessions st) = Some sess ∧
  s_isActive sess = true.

(** A ping that reaches the expiry check: it also carries the session's
    token. *)
Definition valid_ping (req : request) (st : store) (sess : session_doc) : Prop :=
  active_ping req st sess ∧ JS.str_or_empty (s_token sess) = tok_of req.

(** The store after a ping was recorded for [sess]. *)
Definition recorded (req : request) (sess : session_doc) (st : store) : store :=
  let key := (s_orgId sess, s_studentId sess) in
  set_lastLocation
    (<[key := {| ll_lat := lat_of req; ll_lng := lng_of req; ll_acc := acc_of req;
                 ll_sid := sid_of req; ll_updatedAt := server_time st |}]>
       (lastLocation st))
    (set_locations
       (<[key := (default [] (locations st !! key) ++
                  [{| l_sid := sid_of req; l_orgId := s_orgId sess;
                      l_studentId := s_studentId sess;
                      l_lat := lat_of req; l_lng := lng_of req; l_acc := acc_of req;
                      l_createdAt := server_time st; l_ua := ua_of req |}])%list]>
          (locations st)) st).

(** The session document [createTrackingSession] stores (lines 1002-1017),
    issued at [Date.now() = now]: the expiry is
    [Timestamp.fromMillis(now + 24 * 60 * 60 * 1000)]. *)
Definition fromMillis (ms : Z) : ts_field :=
  TsTimestamp (ms / 1000) ((ms - (ms / 1000) * 1000) * 1000000).

Definition issued_session (now : Z) (sessionId token orgId studentId : string)
    : session_doc :=
  {| s_sessionId := sessionId; s_token := Some token; s_orgId := orgId;
     s_studentId := studentId;
     s_expiresAt := fromMillis (now + 24 * 60 * 60 * 1000);
     s_isActive := true |}.

End Tracking.

(** ** Concrete requests and stores used in the examples *)

Module Samples.
Import Firestore.

(** A SHA-512 digest in hexadecimal: 128 digits. *)
Definition digest128 : string :=
  "00112233445566778899aabbccddeeff00112233445566778899aabbccddeeff00112233445566778899aabbccddeeff00112233445566778899aabbccddeeff".

(** A correctly signed [charge.success] delivery carrying the data [d]. *)
Definition delivery (d : Webhook.charge) : Webhook.request :=
  {| Webhook.method := "POST";
     Webhook.signature := Some digest128;
     Webhook.digest := digest128;
     Webhook.body := Some {| Webhook.event := Some "charge.success";
                             Webhook.data := Some d |} |}.

Definition charge_of (amount : JS.value) (plan : option string) : Webhook.charge :=
  {| Webhook.reference := Some "R1";
     Webhook.customer_email := Some "a@x.com";
     Webhook.amount := amount;
     Webhook.metadata_plan := plan |}.

Definition monthly_charge : Webhook.charge := charge_of (JS.VNum 10000) None.
Definition monthly_delivery : Webhook.request := delivery monthly_charge.


(** Amount 10000 with the metadata plan name "gold". *)
Definition gold_charge : Webhook.charge := charge_of (JS.VNum 10000) (Some "gold").

(** A yearly subscriber whose subscription ends at 1800000000000 ms. *)
Definition subscriber : user_doc :=
  {| u_email := Some "a@x.com"; u_plan := Some "yearly";
     u_status := Some "active"; u_lastPaymentRef := Some "R0";
     u_updatedAt := Some 1690000000000; u_trialEndsAt := None;
     u_subscriptionEndsAt := Some 1800000000000; u_rest := ∅ |}.

Definition empty_store : store :=
  {| paystack_events := ∅; users := ∅; trackingSessions := [];
     locations := ∅; lastLocation := ∅; server_time := 1700000000000 |}.

Definition store_with_user : store :=
  set_users {[ "u1" := subscriber ]} empty_store.

(** A tracking session of student [st1] in organisation [org1]. *)
Definition token32 : string := "abcdefghijklmnopqrstuvwxyzABCDEF".




(** The session [createTrackingSession] stores at 1700000000000 ms. *)
Definition issued : session_doc :=
  Tracking.issued_session 1700000000000 "SID_1" token32 "org1" "st1".

Definition store_issued : store :=
  {| paystack_events := ∅; users := ∅; trackingSessions := [issued];
     locations := ∅; lastLocation := ∅; server_time := 1700000000000 |}.


Definition ping_with (tok : string) (lat lng acc : JS.value) : Tracking.request :=
  {| Tracking.method := "POST";
     Tracking.body := Some {| Tracking.sid := Some "SID_1"; Tracking.tok := Some tok;
                              Tracking.lat := lat; Tracking.lng := lng;
                              Tracking.acc := acc |};
     Tracking.user_agent := Some "tracker/1.0" |}.

Definition nairobi_ping (tok : string) : Tracking.request :=
  ping_with tok (JS.VNum (-1.25)) (JS.VNum 36.75) (JS.VNum 12).

(** Two deliveries of one event: both read the ledger before either writes. *)
Definition racing_schedule : list bool :=
  [true; false; true; false; true; true; false; false].

End Samples.

(** ** More JavaScript operations: number formatting, URI encoding, dates and
       random strings *)

Module Runtime.

Definition digit_char (d : Z) : ascii :=
  ascii_of_N (Z.to_N (if d <? 10 then 48 + d else 87 + d)).

Fixpoint digits_onto (fuel : nat) (base n : Z) (acc : string) : string :=
  match fuel with
  | O => acc
  | S f =>
      let acc' := String (digit_char (n mod base)) acc in
      if n / base =? 0 then acc' else digits_onto f base (n / base) acc'
  end.

(** [n.toString(base)] for an integer [n] and [2 <= base <= 36]. *)
Definition toString (base n : Z) : string :=
  let fuel := S (Z.to_nat (Z.log2 (Z.abs n))) in
  if n <? 0 then String "-" (digits_onto fuel base (- n) "")
  else digits_onto fuel base n "".

(** The digits of [n], left-padded with zeros to [width] characters. *)
Fixpoint pad_onto (width : nat) (n : Z) (acc : string) : string :=
  match width with
  | O => acc
  | S w => pad_onto w (n / 10) (String (digit_char (n mod 10)) acc)
  end.

Definition pad (width : nat) (n : Z) : string := pad_onto width n "".

(** [new Date(ms).toISOString()], for an instant within the range of dates. *)
Definition toISOString (ms : Z) : string :=
  let days := ms / 86400000 in
  let rest := ms mod 86400000 in
  let z := days + 719468 in
  let era := z / 146097 in
  let doe := z - era * 146097 in
  let yoe := (doe - doe / 1460 + doe / 36524 - doe / 146096) / 365 in
  let doy := doe - (365 * yoe + yoe / 4 - yoe / 100) in
  let mp := (5 * doy + 2) / 153 in
  let d := doy - (153 * mp + 2) / 5 + 1 in
  let m := if mp <? 10 then mp + 3 else mp - 9 in
  let y := yoe + era * 400 + (if m <=? 2 then 1 else 0) in
  let year :=
    if (0 <=? y) && (y <=? 9999) then pad 4 y
    else String (if y <? 0 then "-"%char else "+"%char) (pad 6 (Z.abs y)) in
  year ++ "-" ++ pad 2 m ++ "-" ++ pad 2 d ++ "T" ++
  pad 2 (rest / 3600000) ++ ":" ++ pad 2 (rest / 60000 mod 60) ++ ":" ++
  pad 2 (rest / 1000 mod 60) ++ "." ++ pad 3 (rest mod 1000) ++ "Z".

(** The characters [encodeURIComponent] leaves as they are. *)
Definition unreserved (c : ascii) : bool :=
  let n := Z.of_N (N_of_ascii c) in
  ((48 <=? n) && (n <=? 57)) || ((65 <=? n) && (n <=? 90)) ||
  ((97 <=? n) && (n <=? 122)) ||
  (n =? 45) || (n =? 95) || (n =? 46) || (n =? 33) || (n =? 126) ||
  (n =? 42) || (n =? 39) || (n =? 40) || (n =? 41).

Definition upper_hex (d : Z) : ascii :=
  ascii_of_N (Z.to_N (if d <? 10 then 48 + d else 55 + d)).

(** [encodeURIComponent(s)], on the bytes of the UTF-8 string [s]. *)
Fixpoint encodeURIComponent (s : string) : string :=
  match s with
  | EmptyString => EmptyString
  | String c r =>
      if unreserved c then String c (encodeURIComponent r)
      else
        let n := Z.of_N (N_of_ascii c) in
        String "%" (String (upper_hex (n / 16)) (String (upper_hex (n mod 16))
                      (encodeURIComponent r)))
  end.

(** [chars[i]] appended to a string: the character, or ["undefined"] out of
    range. *)
Definition char_at (chars : string) (i : nat) : string :=
  match String.get i chars with
  | Some c => String c EmptyString
  | None => "undefined"
  end.

(** The loop of [randCode] and [randToken]: [len] characters of [chars], the
    [j]-th at the index [Math.floor(Math.random() * chars.length)] of the
    [(k + j)]-th draw, which is [rand (k + j)]. *)
Fixpoint pick (chars : string) (rand : nat -> nat) (k len : nat) : string :=
  match len with
  | O => EmptyString
  | S n => char_at chars (rand k) ++ pick chars rand (S k) n
  end.

Definition CODE_CHARS : string := "ABCDEFGHJKLMNPQRSTUVWXYZ23456789".
Definition TOKEN_CHARS : string :=
  "abcdefghijklmnopqrstuvwxyzABCDEFGHIJKLMNOPQRSTUVWXYZ0123456789".

(** [randCode(len)] and [randToken(len)], starting at the [k]-th draw. *)
Definition randCode (rand : nat -> nat) (k len : nat) : string :=
  pick CODE_CHARS rand k len.
Definition randToken (rand : nat -> nat) (k len : nat) : string :=
  pick TOKEN_CHARS rand k len.

(** [s.toUpperCase()], on the ASCII range. *)
Definition upper_char (c : ascii) : ascii :=
  let n := N_of_ascii c in
  if (N.leb 97 n && N.leb n 122)%N then ascii_of_N (n - 32) else c.

Fixpoint toUpperCase (s : string) : string :=
  match s with
  | String c s' => String (upper_char c) (toUpperCase s')
  | EmptyString => EmptyString
  end.

(** Whether every character of a string satisfies [p]. *)
Fixpoint all_chars (p : ascii -> bool) (s : string) : bool :=
  match s with
  | EmptyString => true
  | String c r => p c && all_chars p r
  end.

End Runtime.


(** ** The callable functions: organisations, students, sessions, saved
       locations, rewards, checkout *)

Module Callable.
Import Firestore.

(** What a callable function ends with: the value it returns, or the
    [HttpsError] it throws.  An error that is not an [HttpsError] reaches the
    caller as [internal] / ["INTERNAL"]. *)
Inductive result (A : Type) : Type :=
  | Ok (a : A)
  | Throw (code message : string).
Arguments Ok {A} a.
Arguments Throw {A} code message.

Definition bind {A B : Type} (r : result A) (k : A -> result B) : result B :=
  match r with
  | Ok a => k a
  | Throw c m => Throw c m
  end.

Notation "'do' x <- r ; k" := (bind r (fun x => k))
  (at level 10, x pattern, r at level 100, k at level 200).

(** [req.auth] *)
Record caller : Type := {
  uid : string;
  token_email : option string;     (* req.auth.token.email *)
  token_name : option string;      (* req.auth.token.name *)
}.

(** A document of [orgs]. *)
Record org_doc : Type := {
  o_orgId : string;
  o_name : string;
  o_joinCode : string;
  o_ownerUid : string;
  o_createdAt : Z;
}.

(** A document of [orgs/{org}/members]. *)
Record member_doc : Type := {
  m_uid : string;
  m_role : string;
  m_name : string;
  m_email : string;
  m_createdAt : Z;
}.

(** The fields of [orgs/{org}/students/{id}] other than [lastLocation]; a
    document that a ping created has none of them. *)
Record student_doc : Type := {
  st_orgId : option string;
  st_studentId : option string;
  st_name : option string;
  st_className : option string;
  st_age : option float;
  st_studentCode : option string;
  st_createdAt : option Z;
  st_createdBy : option string;
}.

(** A document of [users/{uid}/children]. *)
Record child_doc : Type := {
  c_orgId : string;
  c_studentId : string;
  c_studentName : string;
  c_className : string;
  c_linkedAt : Z;
}.

(** The fields of a tracking session that [trackPing] does not read. *)
Record session_meta : Type := {
  sm_studentName : string;
  sm_createdBy : string;
  sm_createdByRole : string;
  sm_createdAt : Z;
}.

(** A document of [orgs/{org}/locations/{studentId}]. *)
Record saved_location : Type := {
  sv_orgId : string;
  sv_studentId : string;
  sv_lat : float;
  sv_lng : float;
  sv_accuracy : float;
  sv_savedByUid : string;
  sv_savedByRole : string;
  sv_createdAt : Z;
}.

(** A document of [orgs/{org}/rewards]. *)
Record reward_doc : Type := {
  rw_orgId : string;
  rw_studentId : string;
  rw_studentName : string;
  rw_className : string;
  rw_reason : string;
  rw_createdBy : string;
  rw_createdByRole : string;
  rw_createdAt : ts_field;
}.

(** The store of the webhook and the ping, with what the callable functions
    add: the [createdAt] field of the user documents, the organisations and
    their members, the student documents, the child links
    [users/{uid}/children/{studentId}], the other fields of the tracking
    sessions, the saved locations, and the rewards of each organisation in
    the order in which the store lists them. *)
Record school : Type := {
  base : store;
  user_createdAt : gmap string Z;
  orgs : gmap string org_doc;
  members : gmap (string * string) member_doc;
  students : gmap (string * string) student_doc;
  children : gmap (string * string) child_doc;
  session_metas : gmap (string * string) session_meta;
  saved_locations : gmap (string * string) saved_location;
  rewards : gmap string (list reward_doc);
}.

Definition set_sessions (l : list session_doc) (st : store) : store :=
  {| paystack_events := paystack_events st; users := users st;
     trackingSessions := l; locations := locations st;
     lastLocation := lastLocation st; server_time := server_time st |}.

Definition set_base (b : store) (db : school) : school :=
  {| base := b; user_createdAt := user_createdAt db; orgs := orgs db;
     members := members db; students := students db;
     children := children db; session_metas := session_metas db;
     saved_locations := saved_locations db; rewards := rewards db |}.

Definition set_user_createdAt (m : gmap string Z) (db : school) : school :=
  {| base := base db; user_createdAt := m; orgs := orgs db;
     members := members db; students := students db;
     children := children db; session_metas := session_metas db;
     saved_locations := saved_locations db; rewards := rewards db |}.

Definition set_orgs (m : gmap string org_doc) (db : school) : school :=
  {| base := base db; user_createdAt := user_createdAt db; orgs := m;
     members := members db; students := students db;
     children := children db; session_metas := session_metas db;
     saved_locations := saved_locations db; rewards := rewards db |}.

Definition set_members (m : gmap (string * string) member_doc) (db : school) : school :=
  {| base := base db; user_createdAt := user_createdAt db; orgs := orgs db;
     members := m; students := students db; children := children db;
     session_metas := session_metas db;
     saved_locations := saved_locations db; rewards := rewards db |}.



Definition set_session_metas (m : gmap (string * string) session_meta) (db : school) : school :=
  {| base := base db; user_createdAt := user_createdAt db; orgs := orgs db;
     members := members db; students := students db;
     children := children db; session_metas := m;
     saved_locations := saved_locations db; rewards := rewards db |}.


Definition set_rewards (m : gmap string (list reward_doc)) (db : school) : school :=
  {| base := base db; user_createdAt := user_createdAt db; orgs := orgs db;
     members := members db; students := students db;
     children := children db; session_metas := session_metas db;
     saved_locations := saved_locations db; rewards := m |}.

(** [me.orgId], [me.role]: fields of the user document the webhook does not
    name. *)
Definition orgId_of (me : user_doc) : option string := u_rest me !! "orgId".
Definition role_of (me : user_doc) : option string := u_rest me !! "role".

(** [requireAuth(req)] *)
Definition requireAuth (auth : option caller) : result string :=
  match auth with
  | Some a => Ok (uid a)
  | None => Throw "unauthenticated" "Please login first."
  end.

(** [getUser(uid)] *)
Definition getUser (uid : string) (db : school) : option user_doc :=
  users (base db) !! uid.

(** [requireOrg(uid)] *)
Definition requireOrg (uid : string) (db : school) : result user_doc :=
  match getUser uid db with
  | Some me =>
      if JS.truthy_str (orgId_of me) then Ok me
      else Throw "failed-precondition" "No org. Join or create a school first."
  | None => Throw "failed-precondition" "No org. Join or create a school first."
  end.

(** [requireLinkedChild(uid, studentId)] *)
Definition requireLinkedChild (uid studentId : string) (db : school) : result unit :=
  if bool_decide (is_Some (children db !! (uid, studentId))) then Ok tt
  else Throw "permission-denied" "Not linked to this child.".

(** The role gate shared by the location and tracking functions: a parent
    must be linked to the child, any other caller must be an admin or a
    teacher. *)
Definition requireAccess (denied : string) (uid studentId : string) (me : user_doc)
    (db : school) : result unit :=
  if bool_decide (role_of me = Some "parent") then requireLinkedChild uid studentId db
  else if bool_decide (role_of me = Some "admin") || bool_decide (role_of me = Some "teacher")
  then Ok tt
  else Throw "permission-denied" denied.

(** Whether [orgs/{org}/students/{id}] exists: it was created as a student,
    or a ping merged a snapshot into it. *)
Definition student_exists (org id : string) (db : school) : bool :=
  bool_decide (is_Some (students db !! (org, id))) ||
  bool_decide (is_Some (lastLocation (base db) !! (org, id))).

(** *** createOrgAndAdmin and joinOrgWithCode *)

(** [db.collection("orgs").where("joinCode", "==", code).limit(1)]: the id of
    the first organisation with the join code, in the order the store lists
    them. *)
Definition org_by_joinCode (code : string) (os : gmap string org_doc) : option string :=
  fst <$> List.find (fun kv => String.eqb (o_joinCode kv.2) code) (map_to_list os).

(** Lines 451-455: while an organisation has the join code, another one is
    drawn, eight times at most; [k] is the next draw. *)
Fixpoint retry_joinCode (tries : nat) (rand : nat -> nat) (k : nat) (joinCode : string)
    (os : gmap string org_doc) : string :=
  match tries with
  | O => joinCode
  | S n =>
      match org_by_joinCode joinCode os with
      | None => joinCode
      | Some _ => retry_joinCode n rand (k + 6) (Runtime.randCode rand k 6) os
      end
  end.

(** [name || req.auth?.token?.name || ""] *)
Definition display_name (name : string) (a : caller) : string :=
  if negb (String.eqb name "") then name
  else if JS.truthy_str (token_name a) then JS.str_or_empty (token_name a)
  else "".

(** [normalizeEmail(req.auth?.token?.email || "")] *)
Definition token_email_normal (a : caller) : string :=
  normalizeEmail (if JS.truthy_str (token_email a) then token_email a else Some "").

(** The user document after [set({uid, name, email, role, orgId, createdAt,
    updatedAt}, {merge: true})]; its [createdAt] is kept beside it. *)
Definition merge_profile (a : caller) (name role orgId : string) (t : Z)
    (d : user_doc) : user_doc :=
  {| u_email := Some (token_email_normal a);
     u_plan := u_plan d;
     u_status := u_status d;
     u_lastPaymentRef := u_lastPaymentRef d;
     u_updatedAt := Some t;
     u_trialEndsAt := u_trialEndsAt d;
     u_subscriptionEndsAt := u_subscriptionEndsAt d;
     u_rest := <["uid" := uid a]> (<["name" := display_name name a]>
                 (<["role" := role]> (<["orgId" := orgId]> (u_rest d)))) |}.

(** The two writes that end both functions: the user document and the
    member document. *)
Definition enroll (a : caller) (name role orgId : string) (db : school) : school :=
  let t := server_time (base db) in
  let old := default no_user (users (base db) !! uid a) in
  set_members
    (<[(orgId, uid a) := {| m_uid := uid a; m_role := role;
                            m_name := display_name name a;
                            m_email := token_email_normal a;
                            m_createdAt := t |}]> (members db))
    (set_user_createdAt (<[uid a := t]> (user_createdAt db))
       (set_base (set_users (<[uid a := merge_profile a name role orgId t old]>
                               (users (base db))) (base db)) db)).

Record org_request : Type := {
  or_auth : option caller;
  or_orgName : option string;      (* req.data?.orgName *)
  or_name : option string;         (* req.data?.name *)
}.

(** Lines 442-490: the reply is [orgId] and [joinCode].  [now] is
    [Date.now()], [rand] the draws of [Math.random()]. *)
Definition createOrgAndAdmin (now : Z) (rand : nat -> nat) (req : org_request)
    (db : school) : result (string * string) * school :=
  match or_auth req with
  | None => (Throw "unauthenticated" "Please login first.", db)
  | Some a =>
      let orgName := JS.trim (JS.str_or_empty (or_orgName req)) in
      let name := JS.trim (JS.str_or_empty (or_name req)) in
      if String.eqb orgName "" then (Throw "invalid-argument" "orgName is required.", db)
      else
        let orgId := "org_" ++ Runtime.toString 36 now ++ "_" ++ Runtime.randCode rand 0 4 in
        let joinCode := retry_joinCode 8 rand 10 (Runtime.randCode rand 4 6) (orgs db) in
        let db1 :=
          set_orgs (<[orgId := {| o_orgId := orgId; o_name := orgName;
                                  o_joinCode := joinCode; o_ownerUid := uid a;
                                  o_createdAt := server_time (base db) |}]> (orgs db))
                   db in
        (Ok (orgId, joinCode), enroll a name "admin" orgId db1)
  end.

Record join_request : Type := {
  jr_auth : option caller;
  jr_joinCode : option string;     (* req.data?.joinCode *)
  jr_role : option string;         (* req.data?.role *)
  jr_name : option string;         (* req.data?.name *)
}.

(** Lines 492-533: the reply is [orgId] and [role]. *)
Definition joinOrgWithCode (req : join_request) (db : school)
    : result (string * string) * school :=
  match jr_auth req with
  | None => (Throw "unauthenticated" "Please login first.", db)
  | Some a =>
      let joinCode := Runtime.toUpperCase (JS.trim (JS.str_or_empty (jr_joinCode req))) in
      let role := JS.trim (JS.str_or_empty (jr_role req)) in
      let name := JS.trim (JS.str_or_empty (jr_name req)) in
      if String.eqb joinCode "" then (Throw "invalid-argument" "joinCode is required.", db)
      else if negb (String.eqb role "teacher" || String.eqb role "parent")
      then (Throw "invalid-argument" "role must be teacher or parent.", db)
      else
        match org_by_joinCode joinCode (orgs db) with
        | None => (Throw "not-found" "Join code not found.", db)
        | Some orgId => (Ok (orgId, role), enroll a name role orgId db)
        end
  end.

(** *** createStudent and linkChildByCode *)






(** [collection.doc(id)] takes [id] as a path below the collection: an id
    with a [/] in it addresses a document further down, or none at all.  The
    functions below follow the ids that are one path segment, which
    [plain_id] recognises, and their properties are stated for those. *)
Definition plain_id (id : string) : bool :=
  Runtime.all_chars (fun c => negb (Ascii.eqb c "/")) id.

(** *** createTrackingSession *)

Record session_request : Type := {
  sr_auth : option caller;
  sr_studentId : option string;    (* req.data?.studentId *)
}.

Record session_reply : Type := {
  r_sessionId : string;
  r_trackerUrl : string;
  r_expiresAt : string;
}.

(** [Timestamp.fromMillis(ms)] throws outside the range of timestamps. *)
Definition timestamp_in_range (ms : Z) : bool :=
  (-62135596800 <=? ms / 1000) && (ms / 1000 <? 253402300800).

Definition same_path (a b : session_doc) : bool :=
  String.eqb (s_orgId a) (s_orgId b) && String.eqb (s_sessionId a) (s_sessionId b).

(** [db.collection("orgs").doc(orgId).collection("trackingSessions")
    .doc(sessionId).set(s)]: the document replaces the one at its path, or is
    new, in which case it takes the place [pos] in the order in which the
    store lists the sessions. *)
Definition put_session (pos : nat) (s : session_doc) (l : list session_doc)
    : list session_doc :=
  if existsb (same_path s) l
  then List.map (fun x => if same_path s x then s else x) l
  else (take pos l ++ s :: drop pos l)%list.

Definition TRACKER_BASE : string := "https://kidobabohub.web.app/tracker.html".

(** Lines 985-1023.  [t_id] and [t_exp] are the two readings of [Date.now()],
    [rand] the draws of [Math.random()], [pos] the place the store gives a
    new session document.  Of the document it stores, the session record
    holds the fields [trackPing] reads and [session_metas] the others. *)
Definition createTrackingSession (t_id t_exp : Z) (rand : nat -> nat) (pos : nat)
    (req : session_request) (db : school) : result session_reply * school :=
  let checked :=
    do uid <- requireAuth (sr_auth req) ;
    do me <- requireOrg uid db ;
    let studentId := JS.trim (JS.str_or_empty (sr_studentId req)) in
    if String.eqb studentId "" then Throw "invalid-argument" "studentId required."
    else
      do _ <- requireAccess "Only admin/teacher/parent can create tracking sessions."
                uid studentId me db ;
      if negb (student_exists (JS.str_or_empty (orgId_of me)) studentId db)
      then Throw "not-found" "Student not found."
      else if negb (timestamp_in_range (t_exp + 24 * 60 * 60 * 1000))
      then Throw "internal" "INTERNAL"
      else Ok (uid, me, studentId) in
  match checked with
  | Throw c m => (Throw c m, db)
  | Ok (uid, me, studentId) =>
      let orgId := JS.str_or_empty (orgId_of me) in
      let student := students db !! (orgId, studentId) in
      let sessionId :=
        "SID_" ++ Runtime.toString 36 t_id ++ "_" ++ Runtime.randCode rand 0 5 in
      let token := Runtime.randToken rand 5 32 in
      let doc := Tracking.issued_session t_exp sessionId token orgId studentId in
      let trackerUrl :=
        TRACKER_BASE ++ "#sid=" ++ Runtime.encodeURIComponent sessionId ++
        "&tok=" ++ Runtime.encodeURIComponent token in
      let meta := {| sm_studentName := JS.str_or_empty (student ≫= st_name);
                     sm_createdBy := uid;
                     sm_createdByRole := JS.str_or_empty (role_of me);
                     sm_createdAt := server_time (base db) |} in
      (Ok {| r_sessionId := sessionId; r_trackerUrl := trackerUrl;
             r_expiresAt := Runtime.toISOString (t_exp + 24 * 60 * 60 * 1000) |},
       set_session_metas (<[(orgId, sessionId) := meta]> (session_metas db))
         (set_base (set_sessions (put_session pos doc (trackingSessions (base db)))
                      (base db)) db))
  end.

(** *** saveChildLocation and getLastChildLocation *)





(** *** addRewardStar and getRewardsForStudent *)

Record star_request : Type := {
  sq_auth : option caller;
  sq_studentId : option string;    (* req.data?.studentId *)
  sq_reason : option string;       (* req.data?.reason *)
}.

(** Lines 799-828.  [pos] is the place the store gives the new document,
    whose id it generates. *)
Definition addRewardStar (pos : nat) (req : star_request) (db : school)
    : result unit * school :=
  let checked :=
    do uid <- requireAuth (sq_auth req) ;
    do me <- requireOrg uid db ;
    if negb (bool_decide (role_of me = Some "admin") ||
             bool_decide (role_of me = Some "teacher"))
    then Throw "permission-denied" "Only admin/teacher can add reward stars."
    else
      let studentId := JS.trim (JS.str_or_empty (sq_studentId req)) in
      let reason := JS.trim (JS.str_or_empty (sq_reason req)) in
      let orgId := JS.str_or_empty (orgId_of me) in
      if String.eqb studentId "" then Throw "invalid-argument" "studentId required."
      else if negb (student_exists orgId studentId db)
      then Throw "not-found" "Student not found."
      else
        let student := students db !! (orgId, studentId) in
        Ok {| rw_orgId := orgId; rw_studentId := studentId;
              rw_studentName := JS.str_or_empty (student ≫= st_name);
              rw_className := JS.str_or_empty (student ≫= st_className);
              rw_reason := reason; rw_createdBy := uid;
              rw_createdByRole := JS.str_or_empty (role_of me);
              rw_createdAt := Tracking.fromMillis (server_time (base db)) |} in
  match checked with
  | Throw c m => (Throw c m, db)
  | Ok doc =>
      let old := default [] (rewards db !! rw_orgId doc) in
      (Ok tt,
       set_rewards (<[rw_orgId doc := (take pos old ++ doc :: drop pos old)%list]>
                      (rewards db)) db)
  end.

(** [ts?.toMillis?.() || 0] *)
Definition millis_or_zero (ts : ts_field) : Z :=
  match ts with
  | TsTimestamp s n => s * 1000 + n / 1000000
  | _ => 0
  end.

Definition ts_truthy (ts : ts_field) : bool :=
  match ts with
  | TsFalsy => false
  | _ => true
  end.

(** Lines 853-858: one step of the loop that keeps the latest star. *)
Definition later_star (lastStarAt : ts_field) (r : reward_doc) : ts_field :=
  let t := millis_or_zero (rw_createdAt r) in
  if negb (ts_truthy lastStarAt) || (millis_or_zero lastStarAt <? t)
  then rw_createdAt r            (* r.createdAt || null *)
  else lastStarAt.

Record stars_reply : Type := {
  totalStars : nat;
  lastStarAt : ts_field;           (* [TsFalsy] is [null] *)
}.

Record stars_request : Type := {
  gq_auth : option caller;
  gq_studentId : option string;
}.

(** [.where("studentId", "==", studentId).limit(2000)] on the rewards of an
    organisation. *)
Definition stars_of (orgId studentId : string) (db : school) : list reward_doc :=
  take 2000 (List.filter (fun r => String.eqb (rw_studentId r) studentId)
                         (default [] (rewards db !! orgId))).

(** Lines 830-861. *)
Definition getRewardsForStudent (req : stars_request) (db : school)
    : result stars_reply :=
  do uid <- requireAuth (gq_auth req) ;
  do me <- requireOrg uid db ;
  let studentId := JS.trim (JS.str_or_empty (gq_studentId req)) in
  if String.eqb studentId "" then Throw "invalid-argument" "studentId required."
  else
    do _ <- requireAccess "Not allowed." uid studentId me db ;
    let docs := stars_of (JS.str_or_empty (orgId_of me)) studentId db in
    Ok {| totalStars := length docs;
          lastStarAt := fold_left later_star docs TsFalsy |}.

(** *** initPaystackCheckout *)













End Callable.

(** [req] with another signature header. *)
Definition with_signature (sig : option string) (req : Webhook.request)
    : Webhook.request :=
  {| Webhook.method := Webhook.method req; Webhook.signature := sig;
     Webhook.digest := Webhook.digest req; Webhook.body := Webhook.body req |}.

(** ** Sample callers, requests and stores of the callable functions *)

Module School.
Import Firestore.

(** A member of organisation [org1] with the given e-mail and role. *)
Definition member (email role : string) : user_doc :=
  {| u_email := Some email; u_plan := None; u_status := None;
     u_lastPaymentRef := None; u_updatedAt := None; u_trialEndsAt := None;
     u_subscriptionEndsAt := None;
     u_rest := {[ "orgId" := "org1"; "role" := role ]} |}.

Definition teacher : Callable.caller :=
  {| Callable.uid := "t1"; Callable.token_email := Some "teacher@school.org";
     Callable.token_name := Some "Ms Achieng" |}.

(** A school with a teacher, a parent linked to the student [s1], and that
    student. *)
Definition db0 : Callable.school :=
  {| Callable.base :=
       set_users {[ "t1" := member "teacher@school.org" "teacher";
                    "p1" := member "parent@home.org" "parent" ]}
                 Samples.empty_store;
     Callable.user_createdAt := ∅;
     Callable.orgs := ∅;
     Callable.members := ∅;
     Callable.students :=
       {[ ("org1", "s1") :=
            {| Callable.st_orgId := Some "org1"; Callable.st_studentId := Some "s1";
               Callable.st_name := Some "Amina"; Callable.st_className := Some "PP1";
               Callable.st_age := Some 5%float;
               Callable.st_studentCode := Some "KIDO-ABCDEF";
               Callable.st_createdAt := Some 1690000000000;
               Callable.st_createdBy := Some "t1" |} ]};
     Callable.children :=
       {[ ("p1", "s1") :=
            {| Callable.c_orgId := "org1"; Callable.c_studentId := "s1";
               Callable.c_studentName := "Amina"; Callable.c_className := "PP1";
               Callable.c_linkedAt := 1690000000000 |} ]};
     Callable.session_metas := ∅;
     Callable.saved_locations := ∅;
     Callable.rewards := ∅ |}.

(** The draws of [Math.random()], as indexes. *)
Definition draws (k : nat) : nat := (7 * k + 3) mod 32.

Definition session_for (a : Callable.caller) (studentId : string)
    : Callable.session_request :=
  {| Callable.sr_auth := Some a; Callable.sr_studentId := Some studentId |}.

(** The session the teacher creates for [s1] at 1700000000000 ms. *)
Definition created : Callable.result Callable.session_reply * Callable.school :=
  Callable.createTrackingSession 1700000000000 1700000000000 draws 0
    (session_for teacher " s1 ") db0.

Definition created_reply : Callable.session_reply :=
  match created.1 with
  | Callable.Ok r => r
  | Callable.Throw _ _ =>
      {| Callable.r_sessionId := ""; Callable.r_trackerUrl := "";
         Callable.r_expiresAt := "" |}
  end.

Definition created_token : string := Runtime.randToken draws 5 32.

(** A ping of the tracker page for the session created. *)
Definition tracker_ping : Tracking.request :=
  {| Tracking.method := "POST";
     Tracking.body :=
       Some {| Tracking.sid := Some (Callable.r_sessionId created_reply);
               Tracking.tok := Some created_token;
               Tracking.lat := JS.VNum (-1.25); Tracking.lng := JS.VNum 36.75;
               Tracking.acc := JS.VNum 12 |};
     Tracking.user_agent := Some "tracker/1.0" |}.


(** The teacher gives [s1] a star. *)
Definition star : Callable.star_request :=
  {| Callable.sq_auth := Some teacher; Callable.sq_studentId := Some "s1";
     Callable.sq_reason := Some " reading " |}.

Definition stars_query (a : Callable.caller) : Callable.stars_request :=
  {| Callable.gq_auth := Some a; Callable.gq_studentId := Some "s1" |}.






(** Someone who founds a school, and someone who joins it. *)
Definition founder : Callable.caller :=
  {| Callable.uid := "a1"; Callable.token_email := Some " Head@School.org ";
     Callable.token_name := Some "Head" |}.
Definition newcomer : Callable.caller :=
  {| Callable.uid := "n1"; Callable.token_email := Some "new@home.org";
     Callable.token_name := None |}.

Definition founding : Callable.org_request :=
  {| Callable.or_auth := Some founder; Callable.or_orgName := Some " Sunrise ";
     Callable.or_name := None |}.

Definition founded : Callable.result (string * string) * Callable.school :=
  Callable.createOrgAndAdmin 1700000000000 draws founding db0.

Definition founded_reply : string * string :=
  match founded.1 with
  | Callable.Ok r => r
  | Callable.Throw _ _ => ("", "")
  end.

(** The newcomer joins as a parent, typing the code in lower case. *)
Definition joining : Callable.join_request :=
  {| Callable.jr_auth := Some newcomer;
     Callable.jr_joinCode := Some (" " ++ JS.toLowerCase founded_reply.2);
     Callable.jr_role := Some "parent"; Callable.jr_name := Some "Wanjiru" |}.




(** A signature header in upper case, followed by characters that are not
    hexadecimal. *)
Definition shouted_signature : string := "00112233445566778899AABBCCDDEEFF00112233445566778899AABBCCDDEEFF00112233445566778899AABBCCDDEEFF00112233445566778899AABBCCDDEEFF-zz".

(** A request that is not a POST. *)
Definition get_request : Webhook.request :=
  {| Webhook.method := "GET"; Webhook.signature := None;
     Webhook.digest := Samples.digest128; Webhook.body := None |}.

(** An event without a reference. *)
Definition unreferenced : Webhook.charge :=
  {| Webhook.reference := None; Webhook.customer_email := Some "a@x.com";
     Webhook.amount := JS.VNum 10000; Webhook.metadata_plan := None |}.

End School.

(** ** Sanity checks of the JavaScript operations *)

Example StringToNumber_int : JS.StringToNumber "10000" = 10000%float.
Proof. vm_compute. reflexivity. Qed.
Example StringToNumber_frac : JS.StringToNumber " -1.25e1 " = (-12.5)%float.
Proof. vm_compute. reflexivity. Qed.
Example StringToNumber_junk : PrimFloat.is_nan (JS.StringToNumber "abc") = true.
Proof. vm_compute. reflexivity. Qed.
Example StringToNumber_blank : JS.StringToNumber "  " = 0%float.
Proof. vm_compute. reflexivity. Qed.
Example StringToNumber_hex : JS.StringToNumber "0x10" = 16%float.
Proof. vm_compute. reflexivity. Qed.
Example StringToNumber_dot : PrimFloat.is_nan (JS.StringToNumber ".") = true.
Proof. vm_compute. reflexivity. Qed.
Example StringToNumber_tenth : JS.StringToNumber ".5" = 0.5%float.
Proof. vm_compute. reflexivity. Qed.
Example trim_lower : JS.toLowerCase (JS.trim "  Yearly ") = "yearly".
Proof. vm_compute. reflexivity. Qed.
Example hex_decode_ex : JS.hex_decode "0aFFzz" = [10; 255].
Proof. vm_compute. reflexivity. Qed.

(** ** Trimming *)

Section TrimFacts.





Lemma rev_onto_rev_onto (s acc acc' : string) :
  JS.rev_onto (JS.rev_onto s acc) acc' = JS.rev_onto acc (String.append s acc').
Proof.
  revert acc acc'. induction s as [|c s IH]; intros acc acc'; simpl; [done|].
  by rewrite IH.
Qed.

Lemma rev_rev (s : string) : JS.rev (JS.rev s) = s.
Proof.
  unfold JS.rev. rewrite rev_onto_rev_onto. cbn [JS.rev_onto].
  induction s as [|c s IH]; [reflexivity|].
  change (String c (String.append s "") = String c s). by rewrite IH.
Qed.

End TrimFacts.

(** ** The webhook *)

Section WebhookFacts.
Import Firestore Prog Webhook.

Lemma eqb_empty_false (s : string) : s ≠ "" → String.eqb s "" = false.
Proof. intros H. by apply String.eqb_neq. Qed.

Lemma truthy_str_some (r : string) : r ≠ "" → JS.truthy_str (Some r) = true.
Proof. intros H. simpl. by rewrite (eqb_empty_false _ H). Qed.

Lemma webhook_charge secret now req d :
  charge_success secret req d →
  paystackWebhook secret now req = handle_charge now d.
Proof.
  intros (Hm & Hs & Hsig & Hval & ev & Hb & He & ->).
  unfold paystackWebhook.
  rewrite Hm, String.eqb_refl, (eqb_empty_false _ Hs), Hsig, Hval, Hb, He.
  rewrite bool_decide_eq_true_2 by reflexivity. reflexivity.
Qed.

Lemma delivery_charge_success secret d :
  secret ≠ "" → charge_success secret (Samples.delivery d) d.
Proof.
  intros Hs. unfold charge_success.
  split; [reflexivity|]. split; [exact Hs|]. split; [reflexivity|].
  split; [vm_compute; reflexivity|].
  eexists. split; [reflexivity|]. split; reflexivity.
Qed.

Lemma run_project now email plan days ref st :
  run (project now email plan days ref) st =
  match user_by_email email (users st) with
  | None => {| reply := send 200 "No matching user"; final := st;
               calls := [UserByEmail email] |}
  | Some uid =>
      let up := make_updates now plan days ref in
      {| reply := send 200 "OK";
         final := set_users (<[uid := merge_updates (server_time st) up
                                 (default no_user (users st !! uid))]> (users st)) st;
         calls := [UserByEmail email; UserSetMerge uid up] |}
  end.
Proof.
  unfold project. simpl. destruct (user_by_email email (users st)); reflexivity.
Qed.

Lemma run_handle_charge now d st :
  email_of d ≠ "" →
  run (handle_charge now d) st =
  let rest := project now (email_of d) (classify (metaPlan_of d) (amount_of d)).1
                (classify (metaPlan_of d) (amount_of d)).2 (reference d) in
  if JS.truthy_str (reference d) then
    let r := JS.str_or_empty (reference d) in
    match paystack_events st !! r with
    | Some _ => {| reply := send 200 "Duplicate"; final := st; calls := [EventGet r] |}
    | None =>
        let st1 := set_events (<[r := {| e_createdAt := server_time st;
                                         e_email := email_of d;
                                         e_amount := amount_of d |}]>
                                 (paystack_events st)) st in
        let o := run rest st1 in
        {| reply := reply o; final := final o;
           calls := EventGet r :: EventSet r (email_of d) (amount_of d) :: calls o |}
    end
  else run rest st.
Proof.
  intros He. unfold handle_charge.
  rewrite (eqb_empty_false _ He).
  destruct (classify (metaPlan_of d) (amount_of d)) as [plan days]. simpl fst. simpl snd.
  destruct (JS.truthy_str (reference d)); [|reflexivity].
  cbn [run perform].
  destruct (paystack_events st !! JS.str_or_empty (reference d)) eqn:E.
  - rewrite bool_decide_eq_true_2; [reflexivity| by eexists].
  - rewrite bool_decide_eq_false_2; [reflexivity|]. intros [? ?]; congruence.
Qed.




(** Every call that writes a SubscriptionState carries the [updates] object
    of the event. *)
Lemma handle_charge_user_writes now d st uid up :
  In (UserSetMerge uid up) (calls (run (handle_charge now d) st)) →
  up = updates_of now d.
Proof.
  destruct (String.eqb (email_of d) "") eqn:He.
  - unfold handle_charge. rewrite He. simpl. tauto.
  - apply String.eqb_neq in He. rewrite (run_handle_charge _ _ _ He).
    unfold updates_of.
    destruct (classify (metaPlan_of d) (amount_of d)) as [plan days].
    cbv zeta. cbn [fst snd]. rewrite !run_project. cbn [users set_events].
    destruct (JS.truthy_str (reference d));
      [destruct (paystack_events st !! JS.str_or_empty (reference d))|];
      destruct (user_by_email (email_of d) (users st)); simpl;
      intuition congruence.
Qed.

Lemma webhook_calls secret now req st :
  calls (run (paystackWebhook secret now req) st) = [] ∨
  ∃ d, charge_success secret req d.
Proof.
  unfold paystackWebhook.
  destruct (String.eqb (method req) "POST") eqn:Hm; [|by left].
  destruct (String.eqb secret "") eqn:Hs; [by left|].
  destruct (JS.truthy_str (signature req)) eqn:Hsig; [|by left].
  destruct (timingSafeEqualHex (Some (digest req)) (signature req)) eqn:Hv; [|by left].
  destruct (body req) as [ev|] eqn:Hb; [|by left].
  destruct (bool_decide (event ev = Some "charge.success")) eqn:He; [|by left].
  right. exists (default no_charge (data ev)).
  apply String.eqb_eq in Hm. apply String.eqb_neq in Hs.
  apply bool_decide_eq_true_1 in He.
  unfold charge_success. eauto 10.
Qed.

Lemma make_updates_invariant now plan days ref :
  up_status (make_updates now plan days ref) = "active" ↔
  up_plan (make_updates now plan days ref) ≠ "pending".
Proof.
  simpl. destruct (String.eqb plan "pending") eqn:E.
  - apply String.eqb_eq in E. split; [discriminate | congruence].
  - apply String.eqb_neq in E. tauto.
Qed.

(** C7.  Every SubscriptionState write of the webhook has status [active]
    exactly when its plan is not [pending]. *)
Theorem C7_status_active_iff_not_pending secret now req st uid up :
  In (UserSetMerge uid up) (calls (run (paystackWebhook secret now req) st)) →
  (up_status up = "active" ↔ up_plan up ≠ "pending").
Proof.
  intros Hin.
  destruct (webhook_calls secret now req st) as [Hnil | [d Hd]].
  - rewrite Hnil in Hin. destruct Hin.
  - rewrite (webhook_charge _ _ _ _ Hd) in Hin.
    apply handle_charge_user_writes in Hin. subst up. unfold updates_of.
    destruct (classify (metaPlan_of d) (amount_of d)).
    apply make_updates_invariant.
Qed.

Lemma C7_status_active_iff_not_pending_witness :
  In (UserSetMerge "u1" (updates_of 1700000000000 Samples.monthly_charge))
     (calls (run (paystackWebhook "sk_test" 1700000000000 Samples.monthly_delivery)
               Samples.store_with_user)) ∧
  (up_status (updates_of 1700000000000 Samples.monthly_charge) = "active" ↔
   up_plan (updates_of 1700000000000 Samples.monthly_charge) ≠ "pending").
Proof.
  assert (Hin : In (UserSetMerge "u1" (updates_of 1700000000000 Samples.monthly_charge))
                   (calls (run (paystackWebhook "sk_test" 1700000000000
                                  Samples.monthly_delivery) Samples.store_with_user))).
  { vm_compute. right. right. right. left. reflexivity. }
  split; [exact Hin |].
  exact (C7_status_active_iff_not_pending "sk_test" 1700000000000
           Samples.monthly_delivery Samples.store_with_user "u1" _ Hin).
Defined.













End WebhookFacts.

(** ** The tracking ping *)

Section TrackingFacts.
Import Firestore Prog Tracking.

(** Rewrites the gates in front of the session query with their outcomes. *)
Ltac pass_gates Hm Hsid Htok Hlat Hlng :=
  unfold trackPing;
  rewrite Hm, String.eqb_refl, (eqb_empty_false _ Hsid), (eqb_empty_false _ Htok),
    Hlat, Hlng;
  cbn [negb orb run perform].

Lemma run_record_location req sess st :
  run (record_location req sess) st =
  {| reply := json_ok;
     final := recorded req sess st;
     calls := [LocationAdd (s_orgId sess) (s_studentId sess) (sid_of req)
                           (lat_of req) (lng_of req) (acc_of req) (ua_of req);
               StudentSetLastLocation (s_orgId sess) (s_studentId sess) (sid_of req)
                                      (lat_of req) (lng_of req) (acc_of req)] |}.
Proof. reflexivity. Qed.

(** A valid ping is decided by the expiry check alone. *)
Lemma run_valid_ping now req st sess :
  valid_ping req st sess →
  run (trackPing now req) st =
  if negb (tsToMillis (s_expiresAt sess) =? 0) && (tsToMillis (s_expiresAt sess) <? now)
  then {| reply := json_error 403 "session expired"; final := st;
          calls := [SessionBySid (sid_of req)] |}
  else {| reply := json_ok;
          final := recorded req sess st;
          calls := [SessionBySid (sid_of req);
                    LocationAdd (s_orgId sess) (s_studentId sess) (sid_of req)
                                (lat_of req) (lng_of req) (acc_of req) (ua_of req);
                    StudentSetLastLocation (s_orgId sess) (s_studentId sess)
                                           (sid_of req) (lat_of req) (lng_of req)
                                           (acc_of req)] |}.
Proof.
  intros ((Hm & Hsid & Htok & Hlat & Hlng & Hq & Hact) & Ht).
  pass_gates Hm Hsid Htok Hlat Hlng.
  rewrite Hq, Hact, Ht, String.eqb_refl. cbn [negb].
  destruct (negb (tsToMillis (s_expiresAt sess) =? 0)
            && (tsToMillis (s_expiresAt sess) <? now)); reflexivity.
Qed.

(** [Timestamp.fromMillis(ms).toMillis()] is [ms]. *)
Lemma tsToMillis_fromMillis (ms : Z) : tsToMillis (fromMillis ms) = ms.
Proof.
  unfold fromMillis, tsToMillis.
  rewrite Z.div_mul by lia. pose proof (Z.div_mod ms 1000). lia.
Qed.

(** A session issued at [t0] expires 24 hours later. *)
Lemma issued_session_expiry t0 sessionId token orgId studentId :
  tsToMillis (s_expiresAt (issued_session t0 sessionId token orgId studentId))
  = t0 + 86400000.
Proof. unfold issued_session. cbn [s_expiresAt]. rewrite tsToMillis_fromMillis. lia. Qed.












End TrackingFacts.

(** ** Numeric inputs *)

Section NumericInputs.
Import Firestore Prog.





End NumericInputs.

(** ** Concurrent deliveries *)

Section ConcurrentDeliveries.
Import Firestore Prog Webhook.

Lemma user_by_email_some email (us : gmap string user_doc) uid d :
  us !! uid = Some d → u_email d = Some email →
  is_Some (user_by_email email us).
Proof.
  intros Hl He. unfold user_by_email.
  destruct (List.find (has_email email) (map_to_list us)) as [kd|] eqn:E;
    [by eexists|].
  pose proof (find_none _ _ E (uid, d)) as Hn.
  assert (Hin : In (uid, d) (map_to_list us))
    by (apply list_elem_of_In, elem_of_map_to_list; exact Hl).
  specialize (Hn Hin). unfold has_email in Hn. cbn in Hn.
  rewrite He, String.eqb_refl in Hn. discriminate.
Qed.

Lemma user_by_email_inv email (us : gmap string user_doc) uid :
  user_by_email email us = Some uid →
  ∃ d, us !! uid = Some d ∧ u_email d = Some email.
Proof.
  unfold user_by_email.
  destruct (List.find (has_email email) (map_to_list us)) as [[k d]|] eqn:E;
    [|discriminate].
  intros [= <-]. apply find_some in E as [Hin Hh].
  apply list_elem_of_In, elem_of_map_to_list in Hin.
  exists d. split; [exact Hin|].
  unfold has_email in Hh. cbn in Hh.
  destruct (u_email d) as [e|]; [|discriminate].
  apply String.eqb_eq in Hh. by subst.
Qed.

(** Whenever a signed event with a fresh reference matches a user, the two
    deliveries scheduled so that both read the ledger before either writes
    are both accepted. *)
Lemma racing_deliveries_both_accepted secret now1 now2 req d r uid st :
  charge_success secret req d →
  reference d = Some r → r ≠ "" →
  email_of d ≠ "" →
  paystack_events st !! r = None →
  user_by_email (email_of d) (users st) = Some uid →
  ∃ st' uid',
    interleave Samples.racing_schedule
      (paystackWebhook secret now1 req) (paystackWebhook secret now2 req) st
    = (Ret (send 200 "OK"), Ret (send 200 "OK"), st',
       [EventGet r; EventGet r;
        EventSet r (email_of d) (amount_of d); EventSet r (email_of d) (amount_of d);
        UserByEmail (email_of d); UserSetMerge uid (updates_of now1 d);
        UserByEmail (email_of d); UserSetMerge uid' (updates_of now2 d)]).
Proof.
  intros Hg Hr Hne He Hfresh Hu.
  rewrite !(webhook_charge _ _ _ _ Hg). unfold handle_charge, updates_of.
  rewrite (eqb_empty_false _ He), Hr, (truthy_str_some _ Hne).
  destruct (classify (metaPlan_of d) (amount_of d)) as [plan days].
  cbn [JS.str_or_empty]. unfold Samples.racing_schedule, project.
  cbn [interleave step perform app].
  rewrite bool_decide_eq_false_2 by (rewrite Hfresh; apply is_Some_None).
  cbn [interleave step perform app users server_time paystack_events set_events set_users].
  rewrite Hu.
  destruct (user_by_email_inv _ _ _ Hu) as (u & Hl & Hem).
  destruct (user_by_email_some (email_of d)
              (<[uid := merge_updates (server_time st)
                          (make_updates now1 plan days (Some r))
                          (default no_user (users st !! uid))]> (users st)) uid
              (merge_updates (server_time st) (make_updates now1 plan days (Some r))
                 (default no_user (users st !! uid))))
    as [uid' Hu'].
  { apply lookup_insert_eq. }
  { rewrite Hl. exact Hem. }
  cbn [interleave step perform app users server_time paystack_events set_events set_users].
  rewrite Hu'.
  cbn [interleave step perform app users server_time paystack_events set_events set_users].
  eexists _, uid'. reflexivity.
Qed.

(** C2.  Two deliveries of one signed event run concurrently on a store
    whose ledger does not hold the reference.  The ledger claim is two calls,
    [EventGet] and then [EventSet]; when both deliveries make the first call
    before either makes the second, both are accepted: both answer 200 "OK"
    and the user's SubscriptionState is written twice. *)
Lemma C2_concurrent_duplicates_both_accepted :
  ∃ st',
    interleave Samples.racing_schedule
      (paystackWebhook "sk_test" 1700000000000 Samples.monthly_delivery)
      (paystackWebhook "sk_test" 1700000000000 Samples.monthly_delivery)
      Samples.store_with_user
    = (Ret (send 200 "OK"), Ret (send 200 "OK"), st',
       [EventGet "R1"; EventGet "R1";
        EventSet "R1" "a@x.com" 10000; EventSet "R1" "a@x.com" 10000;
        UserByEmail "a@x.com";
        UserSetMerge "u1" (updates_of 1700000000000 Samples.monthly_charge);
        UserByEmail "a@x.com";
        UserSetMerge "u1" (updates_of 1700000000000 Samples.monthly_charge)]).
Proof. eexists. vm_compute. reflexivity. Qed.

End ConcurrentDeliveries.

(** ** Sanity checks of number formatting, dates and URI encoding *)

Example toString36_ex : Runtime.toString 36 1700000000000 = "loyw3v28".
Proof. vm_compute. reflexivity. Qed.
Example toString36_zero : Runtime.toString 36 0 = "0".
Proof. vm_compute. reflexivity. Qed.
Example toString36_35 : Runtime.toString 36 35 = "z".
Proof. vm_compute. reflexivity. Qed.
Example toString36_36 : Runtime.toString 36 36 = "10".
Proof. vm_compute. reflexivity. Qed.
Example toString10_ex : Runtime.toString 10 404 = "404".
Proof. vm_compute. reflexivity. Qed.
Example iso_epoch : Runtime.toISOString 0 = "1970-01-01T00:00:00.000Z".
Proof. vm_compute. reflexivity. Qed.
Example iso_2023 : Runtime.toISOString 1700000000000 = "2023-11-14T22:13:20.000Z".
Proof. vm_compute. reflexivity. Qed.
Example iso_leap : Runtime.toISOString 951782400123 = "2000-02-29T00:00:00.123Z".
Proof. vm_compute. reflexivity. Qed.
Example iso_before : Runtime.toISOString (-1) = "1969-12-31T23:59:59.999Z".
Proof. vm_compute. reflexivity. Qed.
Example iso_2038 : Runtime.toISOString 2147483648000 = "2038-01-19T03:14:08.000Z".
Proof. vm_compute. reflexivity. Qed.
Example encode_ex : Runtime.encodeURIComponent "/a b?c=d&e" = "%2Fa%20b%3Fc%3Dd%26e".
Proof. vm_compute. reflexivity. Qed.
Example randCode_ex : Runtime.randCode (fun k => (7 * k)%nat) 0 5 = "AHQX6".
Proof. vm_compute. reflexivity. Qed.
Example toUpperCase_ex : Runtime.toUpperCase "kido-a1z{" = "KIDO-A1Z{".
Proof. vm_compute. reflexivity. Qed.

(** ** More on the webhook *)

Section WebhookMore.
Import Firestore Prog Webhook.

Lemma store_eta (st : store) :
  set_users (users st) (set_events (paystack_events st) st) = st.
Proof. by destruct st. Qed.

(** Either a gate answers and nothing happens, or the request is a signed
    [charge.success] event. *)
Lemma webhook_run_cases secret now req st :
  (∃ r, run (paystackWebhook secret now req) st
        = {| reply := r; final := st; calls := [] |} ∧
        (r = send 200 "Ignored" ∨ status r = 400 ∨ status r = 405 ∨ status r = 500) ∧
        (timingSafeEqualHex (Some (digest req)) (signature req) = false →
         status r ≠ 200)) ∨
  (∃ d, charge_success secret req d).
Proof.
  unfold paystackWebhook.
  destruct (String.eqb (method req) "POST") eqn:Hm;
    [|left; eexists; split; [reflexivity|]; split; [auto | intros _; discriminate]].
  destruct (String.eqb secret "") eqn:Hs;
    [left; eexists; split; [reflexivity|]; split; [auto | intros _; discriminate]|].
  destruct (JS.truthy_str (signature req)) eqn:Hsig;
    [|left; eexists; split; [reflexivity|]; split; [auto | intros _; discriminate]].
  destruct (timingSafeEqualHex (Some (digest req)) (signature req)) eqn:Hv;
    [|left; eexists; split; [reflexivity|]; split; [auto | intros _; discriminate]].
  destruct (body req) as [ev|] eqn:Hb;
    [|left; eexists; split; [reflexivity|]; split; [auto | discriminate]].
  destruct (bool_decide (event ev = Some "charge.success")) eqn:He;
    [|left; eexists; split; [reflexivity|]; split; [auto | discriminate]].
  right. exists (default no_charge (data ev)).
  apply String.eqb_eq in Hm. apply String.eqb_neq in Hs.
  apply bool_decide_eq_true_1 in He.
  unfold charge_success. eauto 10.
Qed.

(** The store a [charge.success] event leaves: the ledger as it was or with
    the event's reference added, the users as they were or with the matched
    user rewritten, everything else as it was. *)
Lemma handle_charge_final now d st :
  ∃ es us,
    final (run (handle_charge now d) st) = set_users us (set_events es st) ∧
    (es = paystack_events st ∨
     ∃ r, reference d = Some r ∧ paystack_events st !! r = None ∧
          es = <[r := {| e_createdAt := server_time st; e_email := email_of d;
                         e_amount := amount_of d |}]> (paystack_events st)) ∧
    (us = users st ∨
     ∃ uid, user_by_email (email_of d) (users st) = Some uid ∧
            us = <[uid := merge_updates (server_time st) (updates_of now d)
                             (default no_user (users st !! uid))]> (users st)).
Proof.
  destruct (String.eqb (email_of d) "") eqn:He.
  - exists (paystack_events st), (users st). unfold handle_charge. rewrite He.
    cbn [run final]. rewrite store_eta. auto.
  - apply String.eqb_neq in He. rewrite (run_handle_charge _ _ _ He).
    unfold updates_of.
    destruct (classify (metaPlan_of d) (amount_of d)) as [plan days].
    cbv zeta. cbn [fst snd]. rewrite !run_project. cbn [users set_events].
    destruct (JS.truthy_str (reference d)) eqn:Ht.
    + destruct (reference d) as [r|] eqn:Hr; [|discriminate]. cbn [JS.str_or_empty].
      destruct (paystack_events st !! r) eqn:Hl.
      * exists (paystack_events st), (users st). cbn [final].
        rewrite store_eta. auto.
      * destruct (user_by_email (email_of d) (users st)) as [uid|] eqn:Hu;
          cbn [final]; eexists _, _; (split; [reflexivity|]); split; eauto 10.
    + destruct (user_by_email (email_of d) (users st)) as [uid|] eqn:Hu; cbn [final].
      * exists (paystack_events st), (<[uid := merge_updates (server_time st)
                  (make_updates now plan days (reference d))
                  (default no_user (users st !! uid))]> (users st)).
        split; [by destruct st|]. split; eauto.
      * exists (paystack_events st), (users st). rewrite store_eta. auto.
Qed.

Lemma webhook_final secret now req st :
  final (run (paystackWebhook secret now req) st) = st ∨
  ∃ d, charge_success secret req d ∧
       final (run (paystackWebhook secret now req) st)
       = final (run (handle_charge now d) st).
Proof.
  destruct (webhook_run_cases secret now req st) as [(r & Hr & _) | [d Hd]].
  - left. by rewrite Hr.
  - right. exists d. split; [exact Hd|]. by rewrite (webhook_charge _ _ _ _ Hd).
Qed.

(** X1.  The webhook fails closed: a request that is not a correctly signed
    [charge.success] POST makes no store call and leaves the store as it
    was; it is answered 200 "Ignored" or with status 400, 405 or 500, and
    never with status 200 when the signature does not match the digest. *)
Theorem webhook_fails_closed secret now req st :
  (∀ d, ¬ charge_success secret req d) →
  calls (run (paystackWebhook secret now req) st) = [] ∧
  final (run (paystackWebhook secret now req) st) = st ∧
  (reply (run (paystackWebhook secret now req) st) = send 200 "Ignored" ∨
   status (reply (run (paystackWebhook secret now req) st)) = 400 ∨
   status (reply (run (paystackWebhook secret now req) st)) = 405 ∨
   status (reply (run (paystackWebhook secret now req) st)) = 500) ∧
  (timingSafeEqualHex (Some (digest req)) (signature req) = false →
   status (reply (run (paystackWebhook secret now req) st)) ≠ 200).
Proof.
  intros Hno.
  destruct (webhook_run_cases secret now req st) as [(r & Hr & Hs & Hbad) | [d Hd]].
  - rewrite Hr. cbn [calls final reply]. auto.
  - destruct (Hno d Hd).
Qed.

(** X2.  Ledger records are permanent: whatever the request, a record the
    ledger holds before the webhook runs is there, unchanged, afterwards. *)
Theorem webhook_keeps_ledger_records secret now req st r e :
  paystack_events st !! r = Some e →
  paystack_events (final (run (paystackWebhook secret now req) st)) !! r = Some e.
Proof.
  intros Hl.
  destruct (webhook_final secret now req st) as [-> | (d & _ & ->)]; [exact Hl|].
  destruct (handle_charge_final now d st) as (es & us & -> & Hes & _).
  cbn [paystack_events set_users set_events].
  destruct Hes as [-> | (r' & _ & Hfresh & ->)]; [exact Hl|].
  rewrite lookup_insert_ne; [exact Hl | congruence].
Qed.


Lemma recognized_inv (p : string) :
  recognized p = true →
  p = "monthly" ∨ p = "yearly" ∨ p = "lifetime" ∨ p = "community".
Proof.
  unfold recognized. rewrite !orb_true_iff, !String.eqb_eq. tauto.
Qed.

Lemma classify_range (metaPlan : string) (amount : float) :
  classify metaPlan amount = ("monthly", Some 30) ∨
  classify metaPlan amount = ("yearly", Some 365) ∨
  classify metaPlan amount = ("lifetime", None) ∨
  classify metaPlan amount = ("community", None) ∨
  classify metaPlan amount = ("pending", None).
Proof.
  unfold classify.
  destruct (String.eqb metaPlan "") eqn:E; cbn [negb].
  - destruct (PrimFloat.eqb amount AMT_MONTHLY); [auto|].
    destruct (PrimFloat.eqb amount AMT_YEARLY); [auto|].
    destruct (PrimFloat.eqb amount AMT_LIFETIME); [auto|].
    destruct (PrimFloat.eqb amount AMT_COMMUNITY); auto 10.
  - destruct (recognized metaPlan) eqn:R; [|auto 10].
    destruct (recognized_inv _ R) as [-> | [-> | [-> | ->]]]; cbn; auto 10.
Qed.

(** X4.  Every SubscriptionState the webhook writes carries one of the five
    plan tags, with the expiry tied to it: 30 days after [Date.now()] for
    monthly, 365 days after it for yearly, and [null] for lifetime,
    community and pending. *)
Theorem webhook_plan_and_expiry secret now req st uid up :
  In (UserSetMerge uid up) (calls (run (paystackWebhook secret now req) st)) →
  (up_plan up = "monthly" ∧ up_subscriptionEndsAt up = Some (now + 2592000000)) ∨
  (up_plan up = "yearly" ∧ up_subscriptionEndsAt up = Some (now + 31536000000)) ∨
  ((up_plan up = "lifetime" ∨ up_plan up = "community" ∨ up_plan up = "pending") ∧
   up_subscriptionEndsAt up = None).
Proof.
  intros Hin.
  destruct (webhook_calls secret now req st) as [Hnil | [d Hd]].
  - rewrite Hnil in Hin. destruct Hin.
  - rewrite (webhook_charge _ _ _ _ Hd) in Hin.
    apply handle_charge_user_writes in Hin. subst up. unfold updates_of.
    destruct (classify_range (metaPlan_of d) (amount_of d))
      as [-> | [-> | [-> | [-> | ->]]]]; cbn;
      [left | right; left | right; right | right; right | right; right];
      (split; [auto | try reflexivity; f_equal; lia]).
Qed.

(** X5.  An event without a reference bypasses the ledger: submitted twice
    in a row, with an e-mail that matches a stored user, it is answered 200
    "OK" both times, the ledger is never written and the SubscriptionState
    is written twice. *)
Theorem webhook_without_reference_repeats secret now1 now2 req d st uid :
  charge_success secret req d →
  JS.truthy_str (reference d) = false →
  email_of d ≠ "" →
  user_by_email (email_of d) (users st) = Some uid →
  reply (run (paystackWebhook secret now1 req) st) = send 200 "OK" ∧
  reply (run (paystackWebhook secret now2 req)
           (final (run (paystackWebhook secret now1 req) st))) = send 200 "OK" ∧
  List.filter is_event_write
    (calls (run (paystackWebhook secret now1 req) st) ++
     calls (run (paystackWebhook secret now2 req)
              (final (run (paystackWebhook secret now1 req) st)))) = [] ∧
  length (List.filter is_user_write
            (calls (run (paystackWebhook secret now1 req) st) ++
             calls (run (paystackWebhook secret now2 req)
                      (final (run (paystackWebhook secret now1 req) st)))))
  = 2%nat.
Proof.
  intros Hg Hr He Hu.
  rewrite !(webhook_charge _ _ _ _ Hg), !(run_handle_charge _ _ _ He), Hr.
  cbv zeta. rewrite !run_project, Hu. cbn [final reply calls users set_users].
  destruct (user_by_email_inv _ _ _ Hu) as (u & Hl & Hem).
  destruct (user_by_email_some (email_of d)
              (<[uid := merge_updates (server_time st)
                          (make_updates now1 (classify (metaPlan_of d) (amount_of d)).1
                             (classify (metaPlan_of d) (amount_of d)).2 (reference d))
                          (default no_user (users st !! uid))]> (users st)) uid
              (merge_updates (server_time st)
                 (make_updates now1 (classify (metaPlan_of d) (amount_of d)).1
                    (classify (metaPlan_of d) (amount_of d)).2 (reference d))
                 (default no_user (users st !! uid))))
    as [uid' Hu'].
  { apply lookup_insert_eq. }
  { rewrite Hl. exact Hem. }
  rewrite Hu'. cbn. auto.
Qed.


End WebhookMore.

(** ** More on the tracking ping *)

Section TrackingMore.
Import Firestore Prog Tracking.

Ltac pass_gates_more Hm Hsid Htok Hlat Hlng :=
  unfold trackPing;
  rewrite Hm, String.eqb_refl, (eqb_empty_false _ Hsid), (eqb_empty_false _ Htok),
    Hlat, Hlng;
  cbn [negb orb run perform].

(** How a ping ends: rejected, with the store untouched and no write, or
    recorded for the session it is valid for. *)
Lemma trackPing_run_cases now req st :
  (∃ r cs, run (trackPing now req) st = {| reply := r; final := st; calls := cs |} ∧
           r ≠ json_ok ∧ List.filter is_write cs = [] ∧
           ((∃ sess, valid_ping req st sess) →
            r = json_error 403 "session expired")) ∨
  (∃ sess, valid_ping req st sess ∧
           (tsToMillis (s_expiresAt sess) = 0 ∨ now ≤ tsToMillis (s_expiresAt sess)) ∧
           run (trackPing now req) st =
           {| reply := json_ok;
              final := recorded req sess st;
              calls := [SessionBySid (sid_of req);
                        LocationAdd (s_orgId sess) (s_studentId sess) (sid_of req)
                          (lat_of req) (lng_of req) (acc_of req) (ua_of req);
                        StudentSetLastLocation (s_orgId sess) (s_studentId sess)
                          (sid_of req) (lat_of req) (lng_of req) (acc_of req)] |}).
Proof.
  destruct (String.eqb (method req) "POST") eqn:Hm.
  2:{ left. unfold trackPing. rewrite Hm. eexists _, _. split; [reflexivity|].
      split; [discriminate|]. split; [reflexivity|].
      intros (s & (H & _) & _). apply String.eqb_neq in Hm. contradiction. }
  destruct (String.eqb (sid_of req) "") eqn:Hsid.
  { left. unfold trackPing. rewrite Hm, Hsid. eexists _, _. split; [reflexivity|].
    split; [discriminate|]. split; [reflexivity|].
    intros (s & (_ & H & _) & _). apply String.eqb_eq in Hsid. contradiction. }
  destruct (String.eqb (tok_of req) "") eqn:Htok.
  { left. unfold trackPing. rewrite Hm, Hsid, Htok. eexists _, _.
    split; [reflexivity|]. split; [discriminate|]. split; [reflexivity|].
    intros (s & (_ & _ & H & _) & _). apply String.eqb_eq in Htok. contradiction. }
  destruct (PrimFloat.is_nan (lat_of req)) eqn:Hlat.
  { left. unfold trackPing. rewrite Hm, Hsid, Htok, Hlat. eexists _, _.
    split; [reflexivity|]. split; [discriminate|]. split; [reflexivity|].
    intros (s & (_ & _ & _ & H & _) & _). congruence. }
  destruct (PrimFloat.is_nan (lng_of req)) eqn:Hlng.
  { left. unfold trackPing. rewrite Hm, Hsid, Htok, Hlat, Hlng. eexists _, _.
    split; [reflexivity|]. split; [discriminate|]. split; [reflexivity|].
    intros (s & (_ & _ & _ & _ & H & _) & _). congruence. }
  apply String.eqb_eq in Hm. apply String.eqb_neq in Hsid, Htok.
  destruct (session_by_sid (sid_of req) (trackingSessions st)) as [sess|] eqn:Hq.
  2:{ left. pass_gates_more Hm Hsid Htok Hlat Hlng. rewrite Hq. eexists _, _.
      split; [reflexivity|]. split; [discriminate|]. split; [reflexivity|].
      intros (s & (_ & _ & _ & _ & _ & H & _) & _). congruence. }
  destruct (s_isActive sess) eqn:Hact.
  2:{ left. pass_gates_more Hm Hsid Htok Hlat Hlng. rewrite Hq, Hact. eexists _, _.
      split; [reflexivity|]. split; [discriminate|]. split; [reflexivity|].
      intros (s & (_ & _ & _ & _ & _ & H & H') & _). congruence. }
  destruct (String.eqb (JS.str_or_empty (s_token sess)) (tok_of req)) eqn:Ht.
  2:{ left. pass_gates_more Hm Hsid Htok Hlat Hlng. rewrite Hq, Hact, Ht. eexists _, _.
      split; [reflexivity|]. split; [discriminate|]. split; [reflexivity|].
      intros (s & (_ & _ & _ & _ & _ & H & _) & H').
      apply String.eqb_neq in Ht. congruence. }
  apply String.eqb_eq in Ht.
  assert (Hv : valid_ping req st sess) by (unfold valid_ping, active_ping; auto 10).
  rewrite (run_valid_ping _ _ _ _ Hv).
  destruct (tsToMillis (s_expiresAt sess) =? 0) eqn:E0; cbn [negb andb].
  - right. exists sess. split; [exact Hv|]. split; [left; lia | reflexivity].
  - destruct (tsToMillis (s_expiresAt sess) <? now) eqn:E1.
    + left. eexists _, _. split; [reflexivity|]. split; [discriminate|].
      split; reflexivity.
    + right. exists sess. split; [exact Hv|]. split; [right; lia | reflexivity].
Qed.


Lemma recorded_frame req sess st :
  paystack_events (recorded req sess st) = paystack_events st ∧
  users (recorded req sess st) = users st ∧
  trackingSessions (recorded req sess st) = trackingSessions st ∧
  server_time (recorded req sess st) = server_time st.
Proof. by destruct st. Qed.

(** X8.  What a ping leaves alone: the ledger, the users, the tracking
    sessions and the server clock.  The location history is append-only:
    for every student the history before the ping is a prefix of the history
    after it, with at most one record more, and the history and snapshot of
    a student other than the session's owner are unchanged. *)
Theorem trackPing_frame now req st :
  paystack_events (final (run (trackPing now req) st)) = paystack_events st ∧
  users (final (run (trackPing now req) st)) = users st ∧
  trackingSessions (final (run (trackPing now req) st)) = trackingSessions st ∧
  server_time (final (run (trackPing now req) st)) = server_time st ∧
  (∀ k, ∃ new,
     default [] (locations (final (run (trackPing now req) st)) !! k)
     = (default [] (locations st !! k) ++ new)%list ∧ (length new ≤ 1)%nat) ∧
  (∀ k sess, session_by_sid (sid_of req) (trackingSessions st) = Some sess →
     k ≠ (s_orgId sess, s_studentId sess) →
     locations (final (run (trackPing now req) st)) !! k = locations st !! k ∧
     lastLocation (final (run (trackPing now req) st)) !! k = lastLocation st !! k).
Proof.
  destruct (trackPing_run_cases now req st)
    as [(r & cs & Hrun & _) | (sess & Hv & _ & Hrun)];
    rewrite Hrun; cbn [final].
  - repeat split; try reflexivity.
    intros k. exists []. split; [by rewrite app_nil_r | cbn; lia].
  - destruct (recorded_frame req sess st) as (-> & -> & -> & ->).
    repeat split; try reflexivity.
    + intros k. unfold recorded. cbn [locations set_lastLocation set_locations].
      destruct (decide (k = (s_orgId sess, s_studentId sess))) as [-> | Hne].
      * rewrite lookup_insert_eq. cbn [default]. eexists. split; [reflexivity|].
        cbn. lia.
      * rewrite lookup_insert_ne by congruence. exists [].
        split; [by rewrite app_nil_r | cbn; lia].
    + destruct Hv as ((_&_&_&_&_&Hq&_)&_). rewrite Hq in H. injection H as <-.
      unfold recorded. cbn [locations set_lastLocation set_locations].
      by rewrite lookup_insert_ne by congruence.
    + destruct Hv as ((_&_&_&_&_&Hq&_)&_). rewrite Hq in H. injection H as <-.
      unfold recorded. cbn [lastLocation set_lastLocation set_locations].
      by rewrite lookup_insert_ne by congruence.
Qed.

Lemma substring_length_le (n : nat) (s : string) :
  (String.length (String.substring 0 n s) ≤ n)%nat.
Proof.
  revert s. induction n as [|n IH]; intros [|c s]; cbn; try lia.
  specialize (IH s). lia.
Qed.

(** X9.  What the ping endpoint records: every history record it adds has a
    latitude and a longitude that are numbers (not NaN), a session id that
    is not empty, and a client descriptor of at most 180 characters. *)
Theorem trackPing_records_are_well_formed now req st org stu sid lat lng acc ua :
  In (LocationAdd org stu sid lat lng acc ua) (calls (run (trackPing now req) st)) →
  PrimFloat.is_nan lat = false ∧ PrimFloat.is_nan lng = false ∧
  sid ≠ "" ∧ (String.length ua ≤ 180)%nat.
Proof.
  destruct (trackPing_run_cases now req st)
    as [(r & cs & Hrun & _ & Hcs & _) | (sess & Hv & _ & Hrun)];
    rewrite Hrun; cbn [calls]; intros Hin.
  - exfalso. assert (Hf : In (LocationAdd org stu sid lat lng acc ua)
                            (List.filter is_write cs))
      by (apply filter_In; split; [exact Hin | reflexivity]).
    rewrite Hcs in Hf. destruct Hf.
  - destruct Hv as ((_ & Hsid & _ & Hlat & Hlng & _) & _).
    destruct Hin as [Hin | [Hin | [Hin | []]]]; try discriminate.
    injection Hin as <- <- <- <- <- <- <-.
    repeat split; try assumption. apply substring_length_le.
Qed.

End TrackingMore.

(** ** The helpers *)

Section HelperFacts.



Lemma digit_of_16_lower_char (c : ascii) :
  JS.digit_of 16 (JS.lower_char c) = JS.digit_of 16 c.
Proof. destruct c as [[] [] [] [] [] [] [] []]; reflexivity. Qed.














Lemma hex_decode_lower_bounded (n : nat) (s : string) :
  (String.length s ≤ n)%nat →
  JS.hex_decode (JS.toLowerCase s) = JS.hex_decode s.
Proof.
  revert s. induction n as [|n IH]; intros s Hn.
  - destruct s; [reflexivity | cbn in Hn; lia].
  - destruct s as [|a [|b r]]; try reflexivity.
    cbn [JS.toLowerCase JS.hex_decode]. rewrite !digit_of_16_lower_char.
    destruct (JS.digit_of 16 a), (JS.digit_of 16 b); try reflexivity.
    f_equal. apply IH. cbn in Hn. lia.
Qed.

Lemma hex_decode_toLowerCase (s : string) :
  JS.hex_decode (JS.toLowerCase s) = JS.hex_decode s.
Proof. exact (hex_decode_lower_bounded (String.length s) s (le_n _)). Qed.

Lemma timingSafeEqualHex_decode (a b : option string) :
  timingSafeEqualHex a b = true ↔
  JS.hex_decode (JS.str_or_empty a) = JS.hex_decode (JS.str_or_empty b).
Proof.
  unfold timingSafeEqualHex.
  destruct (Nat.eqb (length (JS.hex_decode (JS.str_or_empty a)))
                    (length (JS.hex_decode (JS.str_or_empty b)))) eqn:E; cbn [negb].
  - by rewrite bool_decide_eq_true.
  - apply Nat.eqb_neq in E. split; [discriminate | congruence].
Qed.
End HelperFacts.

(** ** Tracking sessions: from issue to ping *)

Section SessionFacts.
Import Firestore Prog Tracking.

Lemma all_chars_app p (a b : string) :
  Runtime.all_chars p (a ++ b) = Runtime.all_chars p a && Runtime.all_chars p b.
Proof.
  induction a as [|c a IH]; [reflexivity|].
  change (p c && Runtime.all_chars p (a ++ b)
          = p c && Runtime.all_chars p a && Runtime.all_chars p b).
  rewrite IH. by destruct (p c).
Qed.

Lemma all_chars_get p (chars : string) (i : nat) (c : ascii) :
  Runtime.all_chars p chars = true → String.get i chars = Some c → p c = true.
Proof.
  revert i. induction chars as [|a chars IH]; intros i Hall Hget; [discriminate|].
  cbn in Hall. apply andb_true_iff in Hall as [Ha Hall].
  destruct i as [|i]; cbn in Hget; [congruence | eauto].
Qed.

Lemma all_chars_pick p (chars : string) rand k len :
  Runtime.all_chars p chars = true → Runtime.all_chars p "undefined" = true →
  Runtime.all_chars p (Runtime.pick chars rand k len) = true.
Proof.
  intros Hc Hu. revert k. induction len as [|len IH]; intros k; [reflexivity|].
  cbn [Runtime.pick]. rewrite all_chars_app, IH, andb_true_r.
  unfold Runtime.char_at. destruct (String.get (rand k) chars) as [c|] eqn:E;
    [|exact Hu].
  cbn. by rewrite (all_chars_get _ _ _ _ Hc E).
Qed.

Lemma unreserved_digit_char (d : Z) :
  0 ≤ d < 36 → Runtime.unreserved (Runtime.digit_char d) = true.
Proof.
  intros H.
  assert (Hd : d ∈ seqZ 0 36) by (apply elem_of_seqZ; lia).
  revert Hd. generalize d. apply Forall_forall. vm_compute.
  repeat constructor.
Qed.

Lemma unreserved_digits_onto fuel n acc :
  0 ≤ n → Runtime.all_chars Runtime.unreserved acc = true →
  Runtime.all_chars Runtime.unreserved (Runtime.digits_onto fuel 36 n acc) = true.
Proof.
  revert n acc. induction fuel as [|fuel IH]; intros n acc Hn Hacc; [exact Hacc|].
  cbn [Runtime.digits_onto].
  assert (Hd : Runtime.all_chars Runtime.unreserved
                 (String (Runtime.digit_char (n mod 36)) acc) = true).
  { cbn [Runtime.all_chars]. rewrite Hacc, andb_true_r.
    apply unreserved_digit_char. apply Z.mod_pos_bound. lia. }
  destruct (n / 36 =? 0); [exact Hd|].
  apply IH; [apply Z.div_pos; lia | exact Hd].
Qed.

Lemma unreserved_toString36 (n : Z) :
  Runtime.all_chars Runtime.unreserved (Runtime.toString 36 n) = true.
Proof.
  unfold Runtime.toString. destruct (n <? 0) eqn:E.
  - cbn [Runtime.all_chars]. rewrite unreserved_digits_onto; [reflexivity|lia|reflexivity].
  - apply unreserved_digits_onto; [lia | reflexivity].
Qed.

Lemma encode_unreserved (s : string) :
  Runtime.all_chars Runtime.unreserved s = true → Runtime.encodeURIComponent s = s.
Proof.
  induction s as [|c s IH]; [reflexivity|]. cbn.
  intros H. apply andb_true_iff in H as [Hc Hs]. by rewrite Hc, IH.
Qed.

Lemma unreserved_not_ws (c : ascii) : Runtime.unreserved c = true → JS.is_ws c = false.
Proof. destruct c as [[] [] [] [] [] [] [] []]; vm_compute; congruence. Qed.

Lemma all_chars_rev_onto p (s acc : string) :
  Runtime.all_chars p (JS.rev_onto s acc)
  = Runtime.all_chars p s && Runtime.all_chars p acc.
Proof.
  revert acc. induction s as [|c s IH]; intros acc; [reflexivity|].
  cbn [JS.rev_onto Runtime.all_chars]. rewrite IH. cbn [Runtime.all_chars].
  by destruct (p c), (Runtime.all_chars p s).
Qed.

Lemma trim_start_unreserved (s : string) :
  Runtime.all_chars Runtime.unreserved s = true → JS.trim_start s = s.
Proof.
  destruct s as [|c s]; [reflexivity|]. cbn. intros H.
  apply andb_true_iff in H as [Hc _]. by rewrite (unreserved_not_ws _ Hc).
Qed.

(** A string of unreserved characters is its own trim. *)
Lemma trim_unreserved (s : string) :
  Runtime.all_chars Runtime.unreserved s = true → JS.trim s = s.
Proof.
  intros H. unfold JS.trim. rewrite (trim_start_unreserved _ H).
  rewrite trim_start_unreserved; [apply rev_rev|].
  unfold JS.rev. rewrite all_chars_rev_onto, H. reflexivity.
Qed.

Lemma session_by_sid_put pos s l :
  session_by_sid (s_sessionId s) l = None →
  session_by_sid (s_sessionId s) (Callable.put_session pos s l) = Some s.
Proof.
  intros Hnone. unfold Callable.put_session.
  assert (Hall : ∀ x, In x l → String.eqb (s_sessionId x) (s_sessionId s) = false)
    by (intros x Hx; exact (find_none _ _ Hnone x Hx)).
  assert (He : existsb (Callable.same_path s) l = false).
  { apply not_true_is_false. intros He. apply existsb_exists in He as (x & Hx & Hp).
    unfold Callable.same_path in Hp. apply andb_true_iff in Hp as [_ Hp].
    rewrite String.eqb_sym, (Hall x Hx) in Hp. discriminate. }
  rewrite He. unfold session_by_sid.
  assert (Hpre : ∀ l', (∀ x, In x l' → In x l) →
            List.find (fun x => String.eqb (s_sessionId x) (s_sessionId s))
              (l' ++ s :: drop pos l) = Some s).
  { induction l' as [|a l' IH]; intros Hsub.
    - cbn. by rewrite String.eqb_refl.
    - cbn. rewrite (Hall a (Hsub a (or_introl eq_refl))).
      apply IH. intros x Hx. apply Hsub. by right. }
  apply Hpre. intros x Hx. apply list_elem_of_In. apply list_elem_of_In in Hx.
  exact (subseteq_take pos l x Hx).
Qed.


(** What a successful [createTrackingSession] went through and did. *)
Lemma createTrackingSession_ok t_id t_exp rand pos req db r db' :
  Callable.createTrackingSession t_id t_exp rand pos req db = (Callable.Ok r, db') →
  ∃ a me,
    Callable.sr_auth req = Some a ∧
    Callable.getUser (Callable.uid a) db = Some me ∧
    JS.truthy_str (Callable.orgId_of me) = true ∧
    JS.trim (JS.str_or_empty (Callable.sr_studentId req)) ≠ "" ∧
    Callable.requireAccess "Only admin/teacher/parent can create tracking sessions."
      (Callable.uid a) (JS.trim (JS.str_or_empty (Callable.sr_studentId req))) me db
    = Callable.Ok tt ∧
    Callable.student_exists (JS.str_or_empty (Callable.orgId_of me))
      (JS.trim (JS.str_or_empty (Callable.sr_studentId req))) db = true ∧
    r = {| Callable.r_sessionId :=
             "SID_" ++ Runtime.toString 36 t_id ++ "_" ++ Runtime.randCode rand 0 5;
           Callable.r_trackerUrl :=
             Callable.TRACKER_BASE ++ "#sid=" ++
             Runtime.encodeURIComponent
               ("SID_" ++ Runtime.toString 36 t_id ++ "_" ++ Runtime.randCode rand 0 5) ++
             "&tok=" ++ Runtime.encodeURIComponent (Runtime.randToken rand 5 32);
           Callable.r_expiresAt := Runtime.toISOString (t_exp + 24 * 60 * 60 * 1000) |} ∧
    ∃ metas,
    db' = Callable.set_session_metas metas
            (Callable.set_base
               (Callable.set_sessions
                  (Callable.put_session pos
                     (issued_session t_exp
                        ("SID_" ++ Runtime.toString 36 t_id ++ "_" ++
                         Runtime.randCode rand 0 5)
                        (Runtime.randToken rand 5 32)
                        (JS.str_or_empty (Callable.orgId_of me))
                        (JS.trim (JS.str_or_empty (Callable.sr_studentId req))))
                     (trackingSessions (Callable.base db)))
                  (Callable.base db)) db).
Proof.
  unfold Callable.createTrackingSession, Callable.requireAuth, Callable.requireOrg.
  destruct (Callable.sr_auth req) as [a|]; cbn [Callable.bind]; [|discriminate].
  destruct (Callable.getUser (Callable.uid a) db) as [me|] eqn:Hme;
    cbn [Callable.bind]; [|discriminate].
  destruct (JS.truthy_str (Callable.orgId_of me)) eqn:Ho; cbn [Callable.bind];
    [|discriminate].
  destruct (String.eqb (JS.trim (JS.str_or_empty (Callable.sr_studentId req))) "")
    eqn:Hs; [discriminate|].
  destruct (Callable.requireAccess _ _ _ me db) as [[]|] eqn:Hacc; cbn [Callable.bind];
    [|discriminate].
  destruct (Callable.student_exists _ _ db) eqn:Hst; cbn [negb]; [|discriminate].
  destruct (Callable.timestamp_in_range _) eqn:Hr; cbn [negb]; [|discriminate].
  intros [= <- <-]. apply String.eqb_neq in Hs.
  exists a, me. repeat split; auto. by eexists.
Qed.

Lemma unreserved_session_id t_id rand :
  Runtime.all_chars Runtime.unreserved
    ("SID_" ++ Runtime.toString 36 t_id ++ "_" ++ Runtime.randCode rand 0 5) = true.
Proof.
  rewrite !all_chars_app, unreserved_toString36.
  unfold Runtime.randCode. rewrite all_chars_pick; reflexivity.
Qed.

Lemma unreserved_token rand k len :
  Runtime.all_chars Runtime.unreserved (Runtime.randToken rand k len) = true.
Proof. unfold Runtime.randToken. apply all_chars_pick; reflexivity. Qed.

Lemma pick_not_empty chars rand k len : Runtime.pick chars rand k (S len) ≠ "".
Proof.
  cbn [Runtime.pick]. unfold Runtime.char_at.
  destruct (String.get (rand k) chars); discriminate.
Qed.

(** X12.  From issue to ping.  When [createTrackingSession] succeeds, for a
    student id that is one path segment, with a session id that no stored
    session has, the tracker URL it returns is the
    tracker page followed by [#sid=] the session id [&tok=] a token, and a
    POST ping carrying that session id and token, with numeric latitude and
    longitude, is accepted up to 24 hours after the expiry clock reading and
    answered 403 "session expired" after that. *)
Theorem session_issue_then_ping t_id t_exp rand pos req db r db' :
  Callable.plain_id (JS.trim (JS.str_or_empty (Callable.sr_studentId req))) = true →
  Callable.createTrackingSession t_id t_exp rand pos req db = (Callable.Ok r, db') →
  session_by_sid (Callable.r_sessionId r) (trackingSessions (Callable.base db)) = None →
  0 ≤ t_exp →
  ∃ token,
    Callable.r_trackerUrl r
    = Callable.TRACKER_BASE ++ "#sid=" ++ Callable.r_sessionId r ++ "&tok=" ++ token ∧
    ∀ now ping b,
      method ping = "POST" → body ping = Some b →
      sid b = Some (Callable.r_sessionId r) → tok b = Some token →
      PrimFloat.is_nan (JS.ToNumber (lat b)) = false →
      PrimFloat.is_nan (JS.ToNumber (lng b)) = false →
      (now ≤ t_exp + 86400000 →
       reply (run (trackPing now ping) (Callable.base db')) = json_ok) ∧
      (t_exp + 86400000 < now →
       reply (run (trackPing now ping) (Callable.base db'))
       = json_error 403 "session expired").
Proof.
  intros _ Hrun Hfresh Ht.
  destruct (createTrackingSession_ok _ _ _ _ _ _ _ _ Hrun)
    as (a & me & _ & _ & _ & _ & _ & _ & -> & metas & ->).
  cbn [Callable.r_sessionId Callable.r_trackerUrl] in *.
  set (sidv := "SID_" ++ Runtime.toString 36 t_id ++ "_" ++ Runtime.randCode rand 0 5) in *.
  set (tokv := Runtime.randToken rand 5 32).
  assert (Hsidu : Runtime.all_chars Runtime.unreserved sidv = true)
    by apply unreserved_session_id.
  assert (Htoku : Runtime.all_chars Runtime.unreserved tokv = true)
    by apply unreserved_token.
  exists tokv. split; [by rewrite !encode_unreserved|].
  intros now ping b Hm Hb Hsid Htok Hlat Hlng.
  set (sess := issued_session t_exp sidv tokv (JS.str_or_empty (Callable.orgId_of me))
                 (JS.trim (JS.str_or_empty (Callable.sr_studentId req)))).
  assert (Hv : valid_ping ping
                 (Callable.base
                    (Callable.set_session_metas metas
                       (Callable.set_base
                          (Callable.set_sessions
                             (Callable.put_session pos sess
                                (trackingSessions (Callable.base db)))
                             (Callable.base db)) db))) sess).
  { unfold valid_ping, active_ping, sid_of, tok_of, lat_of, lng_of.
    rewrite Hb. cbn [default from_option id]. rewrite Hsid, Htok.
    cbn [JS.str_or_empty].
    rewrite !trim_unreserved by assumption.
    cbn [Callable.base Callable.set_session_metas Callable.set_base
         Callable.set_sessions trackingSessions].
    repeat split; try assumption.
    - subst sidv. discriminate.
    - subst tokv. apply pick_not_empty.
    - exact (session_by_sid_put pos sess _ Hfresh). }
  rewrite (run_valid_ping _ _ _ _ Hv).
  assert (He : tsToMillis (s_expiresAt sess) = t_exp + 86400000)
    by (subst sess; unfold issued_session; cbn [s_expiresAt];
        rewrite tsToMillis_fromMillis; lia).
  rewrite He. split; intros Hnow.
  - replace (t_exp + 86400000 <? now) with false by lia. by rewrite andb_false_r.
  - replace (t_exp + 86400000 <? now) with true by lia.
    replace (t_exp + 86400000 =? 0) with false by lia. reflexivity.
Qed.

End SessionFacts.

(** ** The signature gate *)

Section SignatureFacts.
Import Firestore Prog Webhook.

(** X14.  The signature gate looks at the bytes the header decodes to, not
    at its text: two non-empty headers that decode to the same bytes
    (hexadecimal digits in either case, anything after the first pair that
    is not hexadecimal) give the same run of the handler. *)
Theorem webhook_signature_by_bytes secret now req s1 s2 :
  s1 ≠ "" → s2 ≠ "" →
  JS.hex_decode s1 = JS.hex_decode s2 →
  paystackWebhook secret now (with_signature (Some s1) req)
  = paystackWebhook secret now (with_signature (Some s2) req).
Proof.
  intros H1 H2 Hd. unfold paystackWebhook, with_signature.
  cbn [method signature digest body].
  rewrite (truthy_str_some _ H1), (truthy_str_some _ H2).
  assert (Heq : timingSafeEqualHex (Some (digest req)) (Some s1)
                = timingSafeEqualHex (Some (digest req)) (Some s2)).
  { unfold timingSafeEqualHex. cbn [JS.str_or_empty]. by rewrite Hd. }
  by rewrite Heq.
Qed.

End SignatureFacts.

(** ** Codes and tokens *)

Section CodeFacts.

Lemma pick_length chars rand k len :
  (∀ j, (rand j < String.length chars)%nat) →
  String.length (Runtime.pick chars rand k len) = len.
Proof.
  intros Hr. revert k. induction len as [|n IH]; intros k; [reflexivity|].
  cbn [Runtime.pick]. unfold Runtime.char_at.
  destruct (String.get (rand k) chars) as [c|] eqn:E.
  - change (String.length (String c (Runtime.pick chars rand (S k) n)) = S n).
    cbn [String.length]. by rewrite IH.
  - exfalso. specialize (Hr k).
    revert E Hr. generalize (rand k). clear.
    induction chars as [|c r IH]; intros i E Hr; [cbn in Hr; lia|].
    destruct i; [discriminate|]. cbn in E, Hr. apply (IH i E). lia.
Qed.


Lemma all_chars_impl (p q : ascii → bool) (s : string) :
  (∀ c, p c = true → q c = true) →
  Runtime.all_chars p s = true → Runtime.all_chars q s = true.
Proof.
  intros Hpq. induction s as [|c r IH]; [reflexivity|].
  cbn [Runtime.all_chars]. intros [Hc Hr]%andb_true_iff.
  by rewrite (Hpq _ Hc), IH.
Qed.

Lemma get_in_range (chars : string) (i : nat) :
  (i < String.length chars)%nat → ∃ c, String.get i chars = Some c.
Proof.
  revert i. induction chars as [|c r IH]; intros i Hi; [cbn in Hi; lia|].
  destruct i; [by exists c|]. cbn in Hi |- *. apply IH. lia.
Qed.

Lemma all_chars_pick_in_range p (chars : string) rand k len :
  (∀ j, (rand j < String.length chars)%nat) →
  Runtime.all_chars p chars = true →
  Runtime.all_chars p (Runtime.pick chars rand k len) = true.
Proof.
  intros Hr Hc. revert k. induction len as [|len IH]; intros k; [reflexivity|].
  cbn [Runtime.pick]. rewrite all_chars_app, IH, andb_true_r.
  unfold Runtime.char_at. destruct (get_in_range chars _ (Hr k)) as [c E].
  rewrite E. cbn. by rewrite (all_chars_get _ _ _ _ Hc E).
Qed.

(** X15.  The shape of codes and tokens.  [Math.floor(Math.random() *
    chars.length)] is always an index of the alphabet; then [randCode(len)]
    has exactly [len] characters, none of them I, O, 0 or 1, and [randToken(len)] has exactly [len] characters;
    both consist of characters [encodeURIComponent] leaves alone. *)
Theorem codes_and_tokens_shape rand k len :
  ((∀ j, (rand j < String.length Runtime.CODE_CHARS)%nat) →
   String.length (Runtime.randCode rand k len) = len ∧
   Runtime.all_chars
     (fun c => negb (existsb (Ascii.eqb c) (list_ascii_of_string "IO01")) &&
               Runtime.unreserved c)
     (Runtime.randCode rand k len) = true) ∧
  ((∀ j, (rand j < String.length Runtime.TOKEN_CHARS)%nat) →
   String.length (Runtime.randToken rand k len) = len ∧
   Runtime.all_chars Runtime.unreserved (Runtime.randToken rand k len) = true).
Proof.
  split; intros Hr; (split; [by apply pick_length|]);
    by apply all_chars_pick_in_range.
Qed.

End CodeFacts.

(** ** Saved locations *)

Section SavedLocationFacts.
Import Firestore.




End SavedLocationFacts.

(** ** Reward stars *)

Section RewardFacts.
Import Firestore.

(** The document [addRewardStar] adds. *)
Lemma addRewardStar_ok pos req db db' :
  Callable.addRewardStar pos req db = (Callable.Ok tt, db') →
  ∃ a me doc,
    Callable.sq_auth req = Some a ∧
    Callable.getUser (Callable.uid a) db = Some me ∧
    JS.truthy_str (Callable.orgId_of me) = true ∧
    (Callable.role_of me = Some "admin" ∨ Callable.role_of me = Some "teacher") ∧
    JS.trim (JS.str_or_empty (Callable.sq_studentId req)) ≠ "" ∧
    Callable.student_exists (JS.str_or_empty (Callable.orgId_of me))
      (JS.trim (JS.str_or_empty (Callable.sq_studentId req))) db = true ∧
    Callable.rw_orgId doc = JS.str_or_empty (Callable.orgId_of me) ∧
    Callable.rw_studentId doc = JS.trim (JS.str_or_empty (Callable.sq_studentId req)) ∧
    Callable.rw_reason doc = JS.trim (JS.str_or_empty (Callable.sq_reason req)) ∧
    Callable.rw_createdBy doc = Callable.uid a ∧
    Callable.rw_createdAt doc = Tracking.fromMillis (server_time (Callable.base db)) ∧
    db' = Callable.set_rewards
            (<[Callable.rw_orgId doc :=
               (take pos (default [] (Callable.rewards db !! Callable.rw_orgId doc))
                ++ doc ::
                drop pos (default [] (Callable.rewards db !! Callable.rw_orgId doc)))%list]>
               (Callable.rewards db)) db.
Proof.
  unfold Callable.addRewardStar, Callable.requireAuth, Callable.requireOrg.
  destruct (Callable.sq_auth req) as [a|]; cbn [Callable.bind]; [|discriminate].
  destruct (Callable.getUser (Callable.uid a) db) as [me|] eqn:Hme;
    cbn [Callable.bind]; [|discriminate].
  destruct (JS.truthy_str (Callable.orgId_of me)) eqn:Ho; cbn [Callable.bind];
    [|discriminate].
  destruct (bool_decide (Callable.role_of me = Some "admin") ||
            bool_decide (Callable.role_of me = Some "teacher")) eqn:Hrole;
    cbn [negb]; [|discriminate].
  destruct (String.eqb (JS.trim (JS.str_or_empty (Callable.sq_studentId req))) "")
    eqn:Hs; [discriminate|].
  destruct (Callable.student_exists _ _ db) eqn:Hst; cbn [negb]; [|discriminate].
  intros [= <-]. apply String.eqb_neq in Hs.
  apply orb_true_iff in Hrole as [Hr|Hr]; apply bool_decide_eq_true_1 in Hr.
  all: match goal with
       | |- context [(_ ++ ?d :: _)%list] => exists a, me, d
       end; repeat split; auto.
Qed.

Lemma requireAccess_staff denied uid studentId me db :
  Callable.role_of me = Some "admin" ∨ Callable.role_of me = Some "teacher" →
  Callable.requireAccess denied uid studentId me db = Callable.Ok tt.
Proof.
  unfold Callable.requireAccess. intros [H|H]; rewrite H.
  - rewrite bool_decide_eq_false_2 by discriminate.
    by rewrite bool_decide_eq_true_2.
  - rewrite bool_decide_eq_false_2 by discriminate.
    rewrite (bool_decide_eq_false_2 (Some "teacher" = Some "admin")) by discriminate.
    by rewrite bool_decide_eq_true_2.
Qed.

Lemma filter_insert_at {A} (p : A → bool) (pos : nat) (x : A) (l : list A) :
  List.filter p (take pos l ++ x :: drop pos l)
  = (List.filter p (take pos l) ++ (if p x then [x] else []) ++
     List.filter p (drop pos l))%list.
Proof. rewrite List.filter_app. cbn [List.filter]. by destruct (p x). Qed.

Lemma filter_insert_at_length {A} (p : A → bool) (pos : nat) (x : A) (l : list A) :
  p x = true →
  length (List.filter p (take pos l ++ x :: drop pos l)) = S (length (List.filter p l)).
Proof.
  intros Hx. rewrite filter_insert_at, Hx, !length_app. cbn [length].
  rewrite <- (take_drop pos l) at 3. rewrite List.filter_app, length_app. lia.
Qed.

Lemma filter_insert_at_other {A} (p : A → bool) (pos : nat) (x : A) (l : list A) :
  p x = false →
  List.filter p (take pos l ++ x :: drop pos l) = List.filter p l.
Proof.
  intros Hx. rewrite filter_insert_at, Hx. cbn [app].
  by rewrite <- List.filter_app, take_drop.
Qed.

(** The stars of a student after a star was added at [pos] for the student
    [rw_studentId doc] of the organisation [rw_orgId doc]. *)
Lemma stars_of_added pos doc db orgId studentId :
  let old := default [] (Callable.rewards db !! Callable.rw_orgId doc) in
  let db' := Callable.set_rewards
               (<[Callable.rw_orgId doc := (take pos old ++ doc :: drop pos old)%list]>
                  (Callable.rewards db)) db in
  (orgId = Callable.rw_orgId doc → studentId = Callable.rw_studentId doc →
   length (Callable.stars_of orgId studentId db')
   = Nat.min 2000 (S (length (Callable.stars_of orgId studentId db)))) ∧
  ((orgId, studentId) ≠ (Callable.rw_orgId doc, Callable.rw_studentId doc) →
   Callable.stars_of orgId studentId db' = Callable.stars_of orgId studentId db).
Proof.
  intros old db'. unfold Callable.stars_of. subst db'.
  cbn [Callable.rewards Callable.set_rewards]. split.
  - intros -> ->. rewrite lookup_insert_eq. cbn [default from_option id].
    fold old. rewrite !length_take, filter_insert_at_length
      by apply String.eqb_refl. lia.
  - intros Hne. destruct (decide (orgId = Callable.rw_orgId doc)) as [->|Ho].
    + rewrite lookup_insert_eq. cbn [default from_option id]. fold old.
      rewrite filter_insert_at_other; [reflexivity|].
      apply String.eqb_neq. congruence.
    + by rewrite lookup_insert_ne.
Qed.


(** What [getRewardsForStudent] answers to a caller who passes its gates. *)
Lemma getRewardsForStudent_run a me req db :
  Callable.gq_auth req = Some a →
  Callable.getUser (Callable.uid a) db = Some me →
  JS.truthy_str (Callable.orgId_of me) = true →
  JS.trim (JS.str_or_empty (Callable.gq_studentId req)) ≠ "" →
  Callable.requireAccess "Not allowed." (Callable.uid a)
    (JS.trim (JS.str_or_empty (Callable.gq_studentId req))) me db = Callable.Ok tt →
  Callable.getRewardsForStudent req db
  = Callable.Ok
      {| Callable.totalStars :=
           length (Callable.stars_of (JS.str_or_empty (Callable.orgId_of me))
                     (JS.trim (JS.str_or_empty (Callable.gq_studentId req))) db);
         Callable.lastStarAt :=
           fold_left Callable.later_star
             (Callable.stars_of (JS.str_or_empty (Callable.orgId_of me))
                (JS.trim (JS.str_or_empty (Callable.gq_studentId req))) db)
             TsFalsy |}.
Proof.
  intros Ha Hme Ho Hs Hacc.
  unfold Callable.getRewardsForStudent, Callable.requireAuth, Callable.requireOrg.
  rewrite Ha. cbn [Callable.bind]. rewrite Hme, Ho. cbn [Callable.bind].
  rewrite (eqb_empty_false _ Hs), Hacc. reflexivity.
Qed.


(** X19.  A star counts: after [addRewardStar] succeeds, for a student id
    that is one path segment, [getRewardsForStudent] by the same caller for
    the same student answers before and after, and the total after is the
    total before plus one, up to the 2000 the query reads. *)
Theorem added_star_counts pos req db db' :
  Callable.plain_id (JS.trim (JS.str_or_empty (Callable.sq_studentId req))) = true →
  Callable.addRewardStar pos req db = (Callable.Ok tt, db') →
  ∃ before after,
    Callable.getRewardsForStudent
      {| Callable.gq_auth := Callable.sq_auth req;
         Callable.gq_studentId := Callable.sq_studentId req |} db
    = Callable.Ok before ∧
    Callable.getRewardsForStudent
      {| Callable.gq_auth := Callable.sq_auth req;
         Callable.gq_studentId := Callable.sq_studentId req |} db'
    = Callable.Ok after ∧
    Callable.totalStars after = Nat.min 2000 (S (Callable.totalStars before)).
Proof.
  intros _ Hrun.
  destruct (addRewardStar_ok _ _ _ _ Hrun)
    as (a & me & doc & Ha & Hme & Ho & Hrole & Hs & Hst & Hdo & Hds & _ & _ & _ & ->).
  eexists _, _. split; [|split].
  - apply (getRewardsForStudent_run a me); try assumption.
    by apply requireAccess_staff.
  - apply (getRewardsForStudent_run a me); try assumption.
    by apply requireAccess_staff.
  - cbn [Callable.totalStars Callable.gq_studentId].
    apply (proj1 (stars_of_added pos doc db _ _)); by symmetry.
Qed.





End RewardFacts.

(** ** From checkout to webhook *)

Section CheckoutFacts.
Import Firestore Prog Webhook.








End CheckoutFacts.

(** ** The properties above at sample inputs *)

Section WebhookMoreWitnesses.
Import Firestore Prog Webhook.

Lemma webhook_fails_closed_witness :
  (∀ d, ¬ charge_success "sk_test" School.get_request d) ∧
  final (run (paystackWebhook "sk_test" 1700000000000 School.get_request)
           Samples.store_with_user) = Samples.store_with_user.
Proof.
  assert (Hno : ∀ d, ¬ charge_success "sk_test" School.get_request d)
    by (intros d [Hm _]; discriminate Hm).
  split; [exact Hno |].
  exact (proj1 (proj2 (webhook_fails_closed "sk_test" 1700000000000
                         School.get_request Samples.store_with_user Hno))).
Defined.

Lemma webhook_keeps_ledger_records_witness :
  paystack_events
    (final (run (paystackWebhook "sk_test" 1700000000000 Samples.monthly_delivery)
              Samples.store_with_user)) !! "R1"
  = Some {| e_createdAt := 1700000000000; e_email := "a@x.com"; e_amount := 10000 |} ∧
  paystack_events
    (final (run (paystackWebhook "sk_test" 1700000000500
                   (Samples.delivery Samples.gold_charge))
              (final (run (paystackWebhook "sk_test" 1700000000000
                             Samples.monthly_delivery)
                        Samples.store_with_user)))) !! "R1"
  = Some {| e_createdAt := 1700000000000; e_email := "a@x.com"; e_amount := 10000 |}.
Proof.
  assert (H : paystack_events
                (final (run (paystackWebhook "sk_test" 1700000000000
                               Samples.monthly_delivery)
                          Samples.store_with_user)) !! "R1"
              = Some {| e_createdAt := 1700000000000; e_email := "a@x.com";
                        e_amount := 10000 |})
    by (vm_compute; reflexivity).
  split; [exact H |].
  exact (webhook_keeps_ledger_records "sk_test" 1700000000500
           (Samples.delivery Samples.gold_charge) _ "R1" _ H).
Defined.

Lemma webhook_plan_and_expiry_witness :
  In (UserSetMerge "u1" (updates_of 1700000000000 Samples.monthly_charge))
     (calls (run (paystackWebhook "sk_test" 1700000000000 Samples.monthly_delivery)
               Samples.store_with_user)) ∧
  ((up_plan (updates_of 1700000000000 Samples.monthly_charge) = "monthly" ∧
    up_subscriptionEndsAt (updates_of 1700000000000 Samples.monthly_charge)
    = Some (1700000000000 + 2592000000)) ∨
   (up_plan (updates_of 1700000000000 Samples.monthly_charge) = "yearly" ∧
    up_subscriptionEndsAt (updates_of 1700000000000 Samples.monthly_charge)
    = Some (1700000000000 + 31536000000)) ∨
   ((up_plan (updates_of 1700000000000 Samples.monthly_charge) = "lifetime" ∨
     up_plan (updates_of 1700000000000 Samples.monthly_charge) = "community" ∨
     up_plan (updates_of 1700000000000 Samples.monthly_charge) = "pending") ∧
    up_subscriptionEndsAt (updates_of 1700000000000 Samples.monthly_charge) = None)).
Proof.
  assert (Hin : In (UserSetMerge "u1" (updates_of 1700000000000 Samples.monthly_charge))
                   (calls (run (paystackWebhook "sk_test" 1700000000000
                                  Samples.monthly_delivery) Samples.store_with_user))).
  { vm_compute. right. right. right. left. reflexivity. }
  split; [exact Hin |].
  exact (webhook_plan_and_expiry "sk_test" 1700000000000 Samples.monthly_delivery
           Samples.store_with_user "u1" _ Hin).
Defined.

Lemma webhook_without_reference_repeats_witness :
  (charge_success "sk_test" (Samples.delivery School.unreferenced) School.unreferenced ∧
   JS.truthy_str (reference School.unreferenced) = false ∧
   email_of School.unreferenced ≠ "" ∧
   user_by_email (email_of School.unreferenced) (users Samples.store_with_user)
   = Some "u1") ∧
  reply (run (paystackWebhook "sk_test" 1700000000500
                (Samples.delivery School.unreferenced))
           (final (run (paystackWebhook "sk_test" 1700000000000
                          (Samples.delivery School.unreferenced))
                     Samples.store_with_user))) = send 200 "OK".
Proof.
  assert (Hg : charge_success "sk_test" (Samples.delivery School.unreferenced)
                 School.unreferenced)
    by (apply delivery_charge_success; discriminate).
  assert (He : email_of School.unreferenced ≠ "") by (vm_compute; discriminate).
  assert (Hu : user_by_email (email_of School.unreferenced)
                 (users Samples.store_with_user) = Some "u1")
    by (vm_compute; reflexivity).
  split; [exact (conj Hg (conj eq_refl (conj He Hu))) |].
  exact (proj1 (proj2 (webhook_without_reference_repeats "sk_test" 1700000000000
                         1700000000500 (Samples.delivery School.unreferenced)
                         School.unreferenced Samples.store_with_user "u1"
                         Hg eq_refl He Hu))).
Defined.


Lemma webhook_signature_by_bytes_witness :
  (School.shouted_signature ≠ "" ∧ Samples.digest128 ≠ "" ∧
   JS.hex_decode School.shouted_signature = JS.hex_decode Samples.digest128) ∧
  paystackWebhook "sk_test" 1700000000000
    (with_signature (Some School.shouted_signature) Samples.monthly_delivery)
  = paystackWebhook "sk_test" 1700000000000
      (with_signature (Some Samples.digest128) Samples.monthly_delivery).
Proof.
  assert (H1 : School.shouted_signature ≠ "") by discriminate.
  assert (H2 : Samples.digest128 ≠ "") by discriminate.
  assert (H3 : JS.hex_decode School.shouted_signature = JS.hex_decode Samples.digest128)
    by (vm_compute; reflexivity).
  split; [exact (conj H1 (conj H2 H3)) |].
  exact (webhook_signature_by_bytes "sk_test" 1700000000000 Samples.monthly_delivery
           _ _ H1 H2 H3).
Defined.

End WebhookMoreWitnesses.

Section TrackingMoreWitnesses.
Import Firestore Prog Tracking.

Lemma trackPing_records_are_well_formed_witness :
  In (LocationAdd "org1" "st1" "SID_1" (-1.25) 36.75 12 "tracker/1.0")
     (calls (run (trackPing 1700003600000 (Samples.nairobi_ping Samples.token32))
               Samples.store_issued)) ∧
  PrimFloat.is_nan (-1.25) = false ∧ PrimFloat.is_nan 36.75 = false ∧
  "SID_1" ≠ "" ∧ (String.length "tracker/1.0" ≤ 180)%nat.
Proof.
  assert (Hin : In (LocationAdd "org1" "st1" "SID_1" (-1.25) 36.75 12 "tracker/1.0")
                   (calls (run (trackPing 1700003600000
                                  (Samples.nairobi_ping Samples.token32))
                             Samples.store_issued))).
  { vm_compute. right. left. reflexivity. }
  split; [exact Hin |].
  exact (trackPing_records_are_well_formed 1700003600000
           (Samples.nairobi_ping Samples.token32) Samples.store_issued
           _ _ _ _ _ _ _ Hin).
Defined.


Lemma session_issue_then_ping_witness :
  (Callable.plain_id (JS.trim " s1 ") = true ∧
   School.created = (Callable.Ok School.created_reply, School.created.2) ∧
   session_by_sid (Callable.r_sessionId School.created_reply)
     (trackingSessions (Callable.base School.db0)) = None) ∧
  ∃ token,
    Callable.r_trackerUrl School.created_reply
    = Callable.TRACKER_BASE ++ "#sid=" ++ Callable.r_sessionId School.created_reply
      ++ "&tok=" ++ token ∧
    ∀ now ping b,
      method ping = "POST" → body ping = Some b →
      sid b = Some (Callable.r_sessionId School.created_reply) → tok b = Some token →
      PrimFloat.is_nan (JS.ToNumber (lat b)) = false →
      PrimFloat.is_nan (JS.ToNumber (lng b)) = false →
      (now ≤ 1700000000000 + 86400000 →
       reply (run (trackPing now ping) (Callable.base School.created.2)) = json_ok) ∧
      (1700000000000 + 86400000 < now →
       reply (run (trackPing now ping) (Callable.base School.created.2))
       = json_error 403 "session expired").
Proof.
  assert (H1 : Callable.plain_id (JS.trim " s1 ") = true) by reflexivity.
  assert (H2 : School.created = (Callable.Ok School.created_reply, School.created.2))
    by (vm_compute; reflexivity).
  assert (H3 : session_by_sid (Callable.r_sessionId School.created_reply)
                 (trackingSessions (Callable.base School.db0)) = None)
    by reflexivity.
  split; [exact (conj H1 (conj H2 H3)) |].
  exact (session_issue_then_ping 1700000000000 1700000000000 School.draws 0
           (School.session_for School.teacher " s1 ") School.db0
           School.created_reply School.created.2 H1 H2 H3 ltac:(lia)).
Defined.


End TrackingMoreWitnesses.

Section CallableWitnesses.
Import Firestore Prog.

Lemma codes_and_tokens_shape_witness :
  (∀ j, (School.draws j < String.length Runtime.CODE_CHARS)%nat) ∧
  String.length (Runtime.randCode School.draws 0 6) = 6%nat.
Proof.
  assert (H : ∀ j, (School.draws j < String.length Runtime.CODE_CHARS)%nat)
    by (intros j; unfold School.draws; apply Nat.mod_upper_bound; discriminate).
  split; [exact H |].
  exact (proj1 (proj1 (codes_and_tokens_shape School.draws 0 6) H)).
Defined.




Lemma added_star_counts_witness :
  (Callable.plain_id (JS.trim "s1") = true ∧
   Callable.addRewardStar 0 School.star School.db0
   = (Callable.Ok tt, (Callable.addRewardStar 0 School.star School.db0).2)) ∧
  ∃ before after,
    Callable.getRewardsForStudent (School.stars_query School.teacher) School.db0
    = Callable.Ok before ∧
    Callable.getRewardsForStudent (School.stars_query School.teacher)
      (Callable.addRewardStar 0 School.star School.db0).2
    = Callable.Ok after ∧
    Callable.totalStars after = Nat.min 2000 (S (Callable.totalStars before)).
Proof.
  assert (H1 : Callable.plain_id (JS.trim "s1") = true) by reflexivity.
  assert (H2 : Callable.addRewardStar 0 School.star School.db0
               = (Callable.Ok tt, (Callable.addRewardStar 0 School.star School.db0).2))
    by (vm_compute; reflexivity).
  split; [exact (conj H1 H2) |].
  exact (added_star_counts 0 School.star School.db0 _ H1 H2).
Defined.




End CallableWitnesses.

(** ** Organisations and their members *)

Section OrgFacts.
Import Firestore.

Lemma org_by_joinCode_some code (os : gmap string Callable.org_doc) id :
  Callable.org_by_joinCode code os = Some id →
  ∃ o, os !! id = Some o ∧ Callable.o_joinCode o = code.
Proof.
  unfold Callable.org_by_joinCode.
  destruct (List.find _ (map_to_list os)) as [[k o]|] eqn:E; [|discriminate].
  intros [= <-]. apply find_some in E as [Hin Hc].
  apply list_elem_of_In, elem_of_map_to_list in Hin.
  exists o. split; [exact Hin|]. by apply String.eqb_eq in Hc.
Qed.

Lemma org_by_joinCode_none code (os : gmap string Callable.org_doc) :
  Callable.org_by_joinCode code os = None ↔
  ∀ id o, os !! id = Some o → Callable.o_joinCode o ≠ code.
Proof.
  unfold Callable.org_by_joinCode. split.
  - destruct (List.find _ (map_to_list os)) as [kd|] eqn:E; [discriminate|].
    intros _ id o Hl Hc.
    pose proof (find_none _ _ E (id, o)) as Hn.
    assert (Hin : In (id, o) (map_to_list os))
      by (apply list_elem_of_In, elem_of_map_to_list; exact Hl).
    specialize (Hn Hin). cbn in Hn. rewrite Hc, String.eqb_refl in Hn. discriminate.
  - intros Hall.
    destruct (List.find _ (map_to_list os)) as [[k o]|] eqn:E; [|reflexivity].
    apply find_some in E as [Hin Hc].
    apply list_elem_of_In, elem_of_map_to_list in Hin.
    apply String.eqb_eq in Hc. destruct (Hall k o Hin Hc).
Qed.

(** The only organisation with a join code is found by it. *)
Lemma org_by_joinCode_insert code (os : gmap string Callable.org_doc) id o :
  Callable.org_by_joinCode code os = None →
  Callable.o_joinCode o = code →
  Callable.org_by_joinCode code (<[id := o]> os) = Some id.
Proof.
  intros Hnone Hc.
  destruct (Callable.org_by_joinCode code (<[id := o]> os)) as [id'|] eqn:E.
  - apply org_by_joinCode_some in E as (o' & Hl & Hc').
    destruct (decide (id' = id)) as [->|Hne]; [reflexivity|].
    rewrite lookup_insert_ne in Hl by congruence.
    destruct (proj1 (org_by_joinCode_none code os) Hnone id' o' Hl Hc').
  - destruct (proj1 (org_by_joinCode_none code _) E id o
                (lookup_insert_eq os id o) Hc).
Qed.

(** The join codes [createOrgAndAdmin] tries: the first one, then one more
    for each code found taken. *)
Lemma retry_joinCode_spec tries rand k joinCode os :
  ∃ i, (i ≤ tries)%nat ∧
       Callable.retry_joinCode tries rand k joinCode os
       = match i with
         | O => joinCode
         | S j => Runtime.randCode rand (k + 6 * j) 6
         end ∧
       (∀ j, (j < i)%nat →
             Callable.org_by_joinCode
               match j with
               | O => joinCode
               | S j' => Runtime.randCode rand (k + 6 * j') 6
               end os ≠ None) ∧
       ((i < tries)%nat →
        Callable.org_by_joinCode
          (Callable.retry_joinCode tries rand k joinCode os) os = None).
Proof.
  revert k joinCode. induction tries as [|n IH]; intros k joinCode.
  - exists 0%nat. cbn. repeat split; [lia | intros j Hj; lia | lia].
  - cbn [Callable.retry_joinCode].
    destruct (Callable.org_by_joinCode joinCode os) as [id|] eqn:E.
    + destruct (IH (k + 6)%nat (Runtime.randCode rand k 6)) as (i & Hi & Hr & Hb & Hf).
      exists (S i). split; [lia|]. split; [|split].
      * rewrite Hr. destruct i as [|j]; [by rewrite Nat.mul_0_r, Nat.add_0_r|].
        f_equal. lia.
      * intros [|j] Hj; [by rewrite E|].
        specialize (Hb j ltac:(lia)). destruct j as [|j'].
        -- by rewrite Nat.mul_0_r, Nat.add_0_r.
        -- replace (k + 6 * S j')%nat with (k + 6 + 6 * j')%nat by lia. exact Hb.
      * intros Hlt. apply Hf. lia.
    + exists 0%nat. split; [lia|]. split; [reflexivity|].
      split; [intros j Hj; lia | intros _; exact E].
Qed.


Lemma merge_profile_fields a name role orgId t d :
  Callable.role_of (Callable.merge_profile a name role orgId t d) = Some role ∧
  Callable.orgId_of (Callable.merge_profile a name role orgId t d) = Some orgId ∧
  u_email (Callable.merge_profile a name role orgId t d)
  = Some (Callable.token_email_normal a) ∧
  u_plan (Callable.merge_profile a name role orgId t d) = u_plan d ∧
  u_status (Callable.merge_profile a name role orgId t d) = u_status d ∧
  u_lastPaymentRef (Callable.merge_profile a name role orgId t d) = u_lastPaymentRef d ∧
  u_trialEndsAt (Callable.merge_profile a name role orgId t d) = u_trialEndsAt d ∧
  u_subscriptionEndsAt (Callable.merge_profile a name role orgId t d)
  = u_subscriptionEndsAt d.
Proof.
  unfold Callable.role_of, Callable.orgId_of, Callable.merge_profile. cbn [u_rest].
  split.
  { rewrite lookup_insert_ne by discriminate. rewrite lookup_insert_ne by discriminate.
    by rewrite lookup_insert_eq. }
  split.
  { rewrite lookup_insert_ne by discriminate. rewrite lookup_insert_ne by discriminate.
    rewrite lookup_insert_ne by discriminate. by rewrite lookup_insert_eq. }
  by repeat split.
Qed.

(** What the two writes of [enroll] change. *)
Lemma enroll_spec a name role orgId db :
  users (Callable.base (Callable.enroll a name role orgId db)) !! Callable.uid a
  = Some (Callable.merge_profile a name role orgId (server_time (Callable.base db))
            (default no_user (users (Callable.base db) !! Callable.uid a))) ∧
  (∀ uid', uid' ≠ Callable.uid a →
     users (Callable.base (Callable.enroll a name role orgId db)) !! uid'
     = users (Callable.base db) !! uid') ∧
  (∃ m, Callable.members (Callable.enroll a name role orgId db)
          !! (orgId, Callable.uid a) = Some m ∧
        Callable.m_role m = role ∧ Callable.m_uid m = Callable.uid a) ∧
  (∀ key, key ≠ (orgId, Callable.uid a) →
     Callable.members (Callable.enroll a name role orgId db) !! key
     = Callable.members db !! key) ∧
  paystack_events (Callable.base (Callable.enroll a name role orgId db))
  = paystack_events (Callable.base db) ∧
  trackingSessions (Callable.base (Callable.enroll a name role orgId db))
  = trackingSessions (Callable.base db) ∧
  locations (Callable.base (Callable.enroll a name role orgId db))
  = locations (Callable.base db) ∧
  lastLocation (Callable.base (Callable.enroll a name role orgId db))
  = lastLocation (Callable.base db) ∧
  Callable.orgs (Callable.enroll a name role orgId db) = Callable.orgs db ∧
  Callable.students (Callable.enroll a name role orgId db) = Callable.students db ∧
  Callable.children (Callable.enroll a name role orgId db) = Callable.children db ∧
  Callable.session_metas (Callable.enroll a name role orgId db)
  = Callable.session_metas db ∧
  Callable.saved_locations (Callable.enroll a name role orgId db)
  = Callable.saved_locations db ∧
  Callable.rewards (Callable.enroll a name role orgId db) = Callable.rewards db.
Proof.
  unfold Callable.enroll.
  cbn [Callable.base Callable.set_members Callable.set_user_createdAt Callable.set_base
       Callable.members Callable.orgs Callable.students Callable.children
       Callable.session_metas Callable.saved_locations Callable.rewards
       users set_users paystack_events trackingSessions locations lastLocation].
  split; [by rewrite lookup_insert_eq|].
  split; [intros uid' Hne; by rewrite lookup_insert_ne|].
  split; [eexists; split; [by rewrite lookup_insert_eq | by split]|].
  split; [intros key Hne; by rewrite lookup_insert_ne|].
  by repeat split.
Qed.



Lemma createOrgAndAdmin_ok now rand req db orgId joinCode db' :
  Callable.createOrgAndAdmin now rand req db = (Callable.Ok (orgId, joinCode), db') →
  ∃ a,
    Callable.or_auth req = Some a ∧
    JS.trim (JS.str_or_empty (Callable.or_orgName req)) ≠ "" ∧
    orgId = "org_" ++ Runtime.toString 36 now ++ "_" ++ Runtime.randCode rand 0 4 ∧
    joinCode = Callable.retry_joinCode 8 rand 10 (Runtime.randCode rand 4 6)
                 (Callable.orgs db) ∧
    db' = Callable.enroll a (JS.trim (JS.str_or_empty (Callable.or_name req)))
            "admin" orgId
            (Callable.set_orgs
               (<[orgId := {| Callable.o_orgId := orgId;
                              Callable.o_name :=
                                JS.trim (JS.str_or_empty (Callable.or_orgName req));
                              Callable.o_joinCode := joinCode;
                              Callable.o_ownerUid := Callable.uid a;
                              Callable.o_createdAt := server_time (Callable.base db) |}]>
                  (Callable.orgs db)) db).
Proof.
  unfold Callable.createOrgAndAdmin.
  destruct (Callable.or_auth req) as [a|]; [|discriminate].
  destruct (String.eqb _ "") eqn:Hn; [discriminate|].
  intros [= <- <- <-]. apply String.eqb_neq in Hn. exists a. by repeat split.
Qed.



Lemma retry_joinCode_not_empty rand k os :
  Callable.retry_joinCode 8 rand k (Runtime.randCode rand 4 6) os ≠ "".
Proof.
  destruct (retry_joinCode_spec 8 rand k (Runtime.randCode rand 4 6) os)
    as (i & _ & Hr & _).
  rewrite Hr. destruct i; apply pick_not_empty.
Qed.

(** X25.  A new organisation can be joined.  [createOrgAndAdmin] succeeds
    with a join code that no stored organisation had; then
    [joinOrgWithCode], called by anyone signed in with that code in any
    case and with white space around it, as a teacher or a parent, succeeds
    and answers the new organisation, and afterwards [requireOrg] lets the
    caller through as a member of it with that role. *)
Theorem created_org_can_be_joined now rand req db orgId joinCode db1 jreq b :
  Callable.createOrgAndAdmin now rand req db = (Callable.Ok (orgId, joinCode), db1) →
  Callable.org_by_joinCode joinCode (Callable.orgs db) = None →
  Callable.jr_auth jreq = Some b →
  Runtime.toUpperCase (JS.trim (JS.str_or_empty (Callable.jr_joinCode jreq))) = joinCode →
  JS.trim (JS.str_or_empty (Callable.jr_role jreq)) = "teacher" ∨
  JS.trim (JS.str_or_empty (Callable.jr_role jreq)) = "parent" →
  ∃ db2 me,
    Callable.joinOrgWithCode jreq db1
    = (Callable.Ok (orgId, JS.trim (JS.str_or_empty (Callable.jr_role jreq))), db2) ∧
    Callable.requireOrg (Callable.uid b) db2 = Callable.Ok me ∧
    Callable.orgId_of me = Some orgId ∧
    Callable.role_of me = Some (JS.trim (JS.str_or_empty (Callable.jr_role jreq))).
Proof.
  intros Hrun Hfree Hb Hcode Hrole.
  destruct (createOrgAndAdmin_ok _ _ _ _ _ _ _ Hrun) as (a & Ha & Hn & Hid & Hjc & ->).
  set (org := {| Callable.o_orgId := orgId; Callable.o_joinCode := joinCode |}).
  set (db0 := Callable.set_orgs (<[orgId := org]> (Callable.orgs db)) db).
  set (db1 := Callable.enroll a _ "admin" orgId db0).
  assert (Hfind : Callable.org_by_joinCode joinCode (Callable.orgs db1) = Some orgId).
  { destruct (enroll_spec a (JS.trim (JS.str_or_empty (Callable.or_name req)))
                "admin" orgId db0) as (_ & _ & _ & _ & _ & _ & _ & _ & Ho & _).
    fold db1 in Ho. rewrite Ho. subst db0. cbn [Callable.orgs Callable.set_orgs].
    by apply org_by_joinCode_insert. }
  assert (Hne : joinCode ≠ "") by (rewrite Hjc; apply retry_joinCode_not_empty).
  set (role := JS.trim (JS.str_or_empty (Callable.jr_role jreq))) in *.
  set (db2 := Callable.enroll b (JS.trim (JS.str_or_empty (Callable.jr_name jreq)))
                role orgId db1).
  destruct (enroll_spec b (JS.trim (JS.str_or_empty (Callable.jr_name jreq)))
              role orgId db1) as (Hu & _).
  destruct (merge_profile_fields b (JS.trim (JS.str_or_empty (Callable.jr_name jreq)))
              role orgId (server_time (Callable.base db1))
              (default no_user (users (Callable.base db1) !! Callable.uid b)))
    as (F1 & F2 & _).
  exists db2. eexists. split; [|split; [|split; [exact F2 | exact F1]]].
  - unfold Callable.joinOrgWithCode. rewrite Hb, Hcode, (eqb_empty_false _ Hne).
    fold role. rewrite Hfind.
    assert (String.eqb role "teacher" || String.eqb role "parent" = true) as ->
      by (destruct Hrole as [-> | ->]; reflexivity).
    reflexivity.
  - unfold Callable.requireOrg, Callable.getUser. fold db2 in Hu. rewrite Hu, F2.
    assert (JS.truthy_str (Some orgId) = true) as ->
      by (apply truthy_str_some; rewrite Hid; discriminate).
    reflexivity.
Qed.


End OrgFacts.

(** ** Students and child links *)

Section StudentFacts.
Import Firestore.








End StudentFacts.

Section OnboardingWitnesses.
Import Firestore.



Lemma created_org_can_be_joined_witness :
  (School.founded = (Callable.Ok ("org_loyw3v28_DLT2", "9GPW5C"), School.founded.2) ∧
   Callable.org_by_joinCode "9GPW5C" (Callable.orgs School.db0) = None ∧
   Runtime.toUpperCase
     (JS.trim (JS.str_or_empty (Callable.jr_joinCode School.joining))) = "9GPW5C") ∧
  ∃ db2 me,
    Callable.joinOrgWithCode School.joining School.founded.2
    = (Callable.Ok ("org_loyw3v28_DLT2",
                    JS.trim (JS.str_or_empty (Callable.jr_role School.joining))), db2) ∧
    Callable.requireOrg (Callable.uid School.newcomer) db2 = Callable.Ok me ∧
    Callable.orgId_of me = Some "org_loyw3v28_DLT2" ∧
    Callable.role_of me
    = Some (JS.trim (JS.str_or_empty (Callable.jr_role School.joining))).
Proof.
  assert (H1 : Callable.createOrgAndAdmin 1700000000000 School.draws School.founding
                 School.db0
               = (Callable.Ok ("org_loyw3v28_DLT2", "9GPW5C"), School.founded.2))
    by (vm_compute; reflexivity).
  assert (H2 : Callable.org_by_joinCode "9GPW5C" (Callable.orgs School.db0) = None)
    by (vm_compute; reflexivity).
  assert (H3 : Runtime.toUpperCase
                 (JS.trim (JS.str_or_empty (Callable.jr_joinCode School.joining)))
               = "9GPW5C")
    by (vm_compute; reflexivity).
  split; [exact (conj H1 (conj H2 H3)) |].
  exact (created_org_can_be_joined 1700000000000 School.draws School.founding
           School.db0 _ _ _ School.joining School.newcomer H1 H2 eq_refl H3
           (or_intror eq_refl)).
Defined.





End OnboardingWitnesses.
